(** * EagleAI backend: resume storage and student endpoints

    A shallow embedding of [backend_python/main.py].  The MongoDB collection
    [students_collection] is a finite map from ObjectId (canonical lower-case
    hexadecimal text) to student documents, the upload directory is a finite
    map from path to file contents, and every endpoint is a function in a
    state-and-exception monad over that world.  Python exceptions do not roll
    the world back, so a raised exception is returned together with the world
    reached so far. *)

From Stdlib Require Import ZArith QArith Strings.String Strings.Ascii Strings.Byte Bool Lia.
From stdpp Require Import base option gmap strings list fin_maps.

Local Open Scope Z_scope.

(** ** Documents *)

Module ResumeFile.
(** The dictionary [resume_data] that [upload_student_resume] stores under
    the key [resumeFile].  It is the only writer of that key and always
    stores the five keys together, so the test
    ["filePath" in student["resumeFile"]] made before the old file is
    deleted holds whenever the key [resumeFile] is there. *)
Record t := mk {
  originalName : string;
  fileName : string;
  filePath : string;
  fileSize : Z;
  uploadedAt : string
}.
End ResumeFile.

Module ResumeAnalysis.
(** The dictionary [analysis] that [analyze_student_resume] stores under
    the key [resumeAnalysis]. *)
Record t := mk {
  overallScore : Q;
  categoryScores : list (string * Z);
  strengths : list string;
  priorityImprovements : list string;
  overallAssessment : string;
  lastAnalyzed : string
}.

Definition with_lastAnalyzed (stamp : string) (a : t) : t :=
  mk (overallScore a) (categoryScores a) (strengths a)
     (priorityImprovements a) (overallAssessment a) stamp.
End ResumeAnalysis.

Module StudentCreate.
(** The pydantic request model [StudentCreate]. *)
Record t := mk {
  name : string;
  email : string;
  university : option string;
  major : option string;
  graduationYear : option Z;
  skills : list string;
  interests : list string;
  careerGoals : list string;
  jobPreferences : list (string * string)
}.
End StudentCreate.

Module Student.
(** A document of the [students] collection, without its [_id], which is
    the key of the collection map.  The three resume keys are optional:
    they are absent until written and are removed by [$unset]. *)
Record t := mk {
  name : string;
  email : string;
  university : option string;
  major : option string;
  graduationYear : option Z;
  skills : list string;
  interests : list string;
  careerGoals : list string;
  jobPreferences : list (string * string);
  isActive : bool;
  createdAt : string;
  lastLogin : string;
  resumeFile : option ResumeFile.t;
  resumeText : option string;
  resumeAnalysis : option ResumeAnalysis.t
}.

(** [{"$set": {"resumeFile": rf}}] *)
Definition set_resumeFile (rf : ResumeFile.t) (s : t) : t :=
  mk (name s) (email s) (university s) (major s) (graduationYear s)
     (skills s) (interests s) (careerGoals s) (jobPreferences s)
     (isActive s) (createdAt s) (lastLogin s)
     (Some rf) (resumeText s) (resumeAnalysis s).

(** [{"$set": {"resumeAnalysis": a}}] *)
Definition set_resumeAnalysis (a : ResumeAnalysis.t) (s : t) : t :=
  mk (name s) (email s) (university s) (major s) (graduationYear s)
     (skills s) (interests s) (careerGoals s) (jobPreferences s)
     (isActive s) (createdAt s) (lastLogin s)
     (resumeFile s) (resumeText s) (Some a).

(** [{"$unset": {"resumeFile": "", "resumeText": "", "resumeAnalysis": ""}}] *)
Definition unset_resume (s : t) : t :=
  mk (name s) (email s) (university s) (major s) (graduationYear s)
     (skills s) (interests s) (careerGoals s) (jobPreferences s)
     (isActive s) (createdAt s) (lastLogin s)
     None None None.

End Student.

(** ** Responses *)

Module ResumeInfo.
(** The pydantic response model [ResumeInfo]. *)
Record t := mk {
  id : string;
  fileName : string;
  fileUrl : string;
  uploadedAt : string;
  fileSize : Z;
  analysis : option ResumeAnalysis.t
}.
End ResumeInfo.

Module ResumeUploadResponse.
Record t := mk { message : string; resume : ResumeInfo.t }.
End ResumeUploadResponse.

Module FileResponse.
(** [FileResponse(path=..., filename=..., media_type=...)]; [body] is what
    the framework streams to the client, the contents of the file at
    [path]. *)
Record t := mk {
  path : string;
  filename : string;
  media_type : string;
  body : list byte
}.
End FileResponse.

Module AnalyzeResponse.
Record t := mk { message : string; analysis : ResumeAnalysis.t }.
End AnalyzeResponse.

Module CreatedStudent.
(** The dictionary under [student] in the answer of [create_student]. *)
Record t := mk {
  id : string;
  name : string;
  email : string;
  university : option string;
  major : option string
}.
End CreatedStudent.

(** ** Exceptions, world and environment *)

Inductive exn :=
| HTTPException (status_code : Z) (detail : string)
| InvalidId      (* bson.errors.InvalidId, raised by ObjectId(...) *)
| OSError        (* raised by open, write and unlink *)
| PyMongoError.  (* raised by update_one and insert_one *)

Record World := mkWorld {
  students_collection : gmap string Student.t;
  files : gmap string (list byte)
}.

(** What [open(file_path, "wb")] followed by [buffer.write(content)] can do:
    complete, fail before the file is created, or fail after the file was
    created with only [written] in it. *)
Inductive write_outcome :=
| WriteCompletes
| OpenFails
| WriteFails (written : list byte).

(** Everything a request reads from outside the world: the clock, the
    identifier the driver generates for an insert, which of the effectful
    calls made after the student was fetched raise, and whether reading the
    cursor of the listing raises. *)
Record Env := mkEnv {
  now_strftime : string;      (* datetime.now().strftime("%Y%m%d%H%M%S") *)
  now_isoformat : string;     (* first datetime.now().isoformat() *)
  now_isoformat' : string;    (* second datetime.now().isoformat() *)
  inserted_id : string;       (* _id generated by insert_one *)
  unlink_raises : bool;
  write_does : write_outcome;
  update_raises : bool;
  insert_raises : bool;
  find_raises : bool          (* the cursor of students_collection.find(...) *)
}.

(** ** The state-and-exception monad of a request *)

Definition M (A : Type) : Type := World -> (exn + A) * World.

Definition ret {A} (a : A) : M A := fun w => (inr a, w).
Definition raise {A} (e : exn) : M A := fun w => (inl e, w).
Definition bind {A B} (m : M A) (k : A -> M B) : M B :=
  fun w => match m w with
           | (inr a, w') => k a w'
           | (inl e, w') => (inl e, w')
           end.

(** [try: body except ...: handler] *)
Definition try_except {A} (body : M A) (handler : exn -> M A) : M A :=
  fun w => match body w with
           | (inr a, w') => (inr a, w')
           | (inl e, w') => handler e w'
           end.

Notation "'let*' x ':=' m 'in' k" := (bind m (fun x => k))
  (at level 10, x name, m at level 100, k at level 200).
Notation "m ';;' k" := (bind m (fun _ => k))
  (at level 100, k at level 200, right associativity).

(** [if c: raise e] *)
Definition raise_if (c : bool) (e : exn) : M unit :=
  if c then raise e else ret tt.

(** The handler clauses
    [except HTTPException: raise] / [except Exception: raise HTTPException(500, detail)]. *)
Definition reraise_http_else_500 {A} (detail : string) (e : exn) : M A :=
  match e with
  | HTTPException _ _ => raise e
  | _ => raise (HTTPException 500 detail)
  end.

(** The single clause [except Exception: raise HTTPException(500, detail)].
    [HTTPException] is a subclass of [Exception], so this clause catches it
    too. *)
Definition any_exception_500 {A} (detail : string) (e : exn) : M A :=
  raise (HTTPException 500 detail).

(** ** Configuration *)

Definition UPLOAD_DIR : string := "uploads/resumes".
Definition MAX_FILE_SIZE : Z := 5 * 1024 * 1024.

(** ** Library calls *)

Definition is_hex_digit (c : ascii) : bool :=
  let n := nat_of_ascii c in
  ((48 <=? n) && (n <=? 57) || (65 <=? n) && (n <=? 70) || (97 <=? n) && (n <=? 102))%nat.

Definition lower_hex_digit (c : ascii) : ascii :=
  let n := nat_of_ascii c in
  if ((65 <=? n) && (n <=? 70))%nat then ascii_of_nat (n + 32) else c.

(** [Py_ISSPACE]: the six ASCII blanks. *)
Definition is_space (c : ascii) : bool :=
  let n := nat_of_ascii c in
  ((n =? 32) || (9 <=? n) && (n <=? 13))%nat.

(** [binascii.hexlify(bytes.fromhex(s))]: [bytes.fromhex] skips ASCII blanks
    before each byte and reads a byte from two adjacent hexadecimal digits of
    either case; it raises [ValueError] (here [None]) on anything else.  The
    bytes are rendered as [hexlify] prints them, two lower-case digits
    each. *)
Fixpoint fromhex (s : string) : option string :=
  match s with
  | EmptyString => Some EmptyString
  | String c s' =>
      if is_space c then fromhex s'
      else if is_hex_digit c then
        match s' with
        | EmptyString => None
        | String d s'' =>
            if is_hex_digit d
            then match fromhex s'' with
                 | Some rest =>
                     Some (String (lower_hex_digit c) (String (lower_hex_digit d) rest))
                 | None => None
                 end
            else None
        end
      else None
  end.

(** bson accepts a string as an ObjectId when it has 24 characters and
    [bytes.fromhex] accepts it: 24 hexadecimal digits, or fewer digit pairs
    with blanks around them. *)
Definition is_object_id (s : string) : bool :=
  (String.length s =? 24)%nat && bool_decide (is_Some (fromhex s)).

(** [str(ObjectId(s))] for an accepted [s]: its bytes in lower-case
    hexadecimal.  For 24 hexadecimal digits this is [s] in lower case. *)
Definition object_id_text (s : string) : string :=
  default EmptyString (fromhex s).

(** [ObjectId(student_id)]: the identifier in canonical form (what
    [str(ObjectId(...))] prints), or [InvalidId]. *)
Definition ObjectId (student_id : string) : M string :=
  if is_object_id student_id
  then ret (object_id_text student_id)
  else raise InvalidId.

(** [s.endswith(suffix)] *)
Definition endswith (s suffix : string) : bool :=
  let n := String.length s in
  let m := String.length suffix in
  ((m <=? n)%nat && String.eqb (substring (n - m) m s) suffix).

(** [len(content)] *)
Definition len (content : list byte) : Z := Z.of_nat (length content).

(** [UPLOAD_DIR / filename] rendered by [str]. *)
Definition path_join (dir filename : string) : string :=
  dir +:+ "/" +:+ filename.

(** [students_collection.find_one({"_id": oid})] *)
Definition find_one_by_id (oid : string) : M (option Student.t) :=
  fun w => (inr (students_collection w !! oid), w).

(** [students_collection.find_one({"email": email})] *)
Definition find_one_by_email (email : string) : M (option (string * Student.t)) :=
  fun w =>
    (inr (List.find (fun kv => String.eqb (Student.email (snd kv)) email)
                    (map_to_list (students_collection w))), w).

(** [students_collection.update_one({"_id": oid}, update)] *)
Definition update_one (env : Env) (oid : string) (update : Student.t -> Student.t) : M unit :=
  fun w =>
    if update_raises env then (inl PyMongoError, w)
    else (inr tt, mkWorld (alter update oid (students_collection w)) (files w)).

(** [students_collection.insert_one(doc)]: the driver generates the [_id];
    the server refuses a duplicate [_id]. *)
Definition insert_one (env : Env) (doc : Student.t) : M string :=
  fun w =>
    if insert_raises env then (inl PyMongoError, w)
    else match students_collection w !! inserted_id env with
         | Some _ => (inl PyMongoError, w)
         | None => (inr (inserted_id env),
                    mkWorld (<[inserted_id env := doc]> (students_collection w)) (files w))
         end.

(** [Path(p).exists()] *)
Definition path_exists (p : string) : M bool :=
  fun w => (inr (bool_decide (is_Some (files w !! p))), w).

(** [Path(p).unlink()] *)
Definition unlink (env : Env) (p : string) : M unit :=
  fun w =>
    if unlink_raises env then (inl OSError, w)
    else (inr tt, mkWorld (students_collection w) (delete p (files w))).

(** [with open(p, "wb") as buffer: buffer.write(content)] *)
Definition write_file (env : Env) (p : string) (content : list byte) : M unit :=
  fun w =>
    match write_does env with
    | WriteCompletes =>
        (inr tt, mkWorld (students_collection w) (<[p := content]> (files w)))
    | OpenFails => (inl OSError, w)
    | WriteFails written =>
        (inl OSError, mkWorld (students_collection w) (<[p := written]> (files w)))
    end.

(** ** Resume storage endpoints *)

(** [GET /api/students/{student_id}/resume] *)
Definition get_student_resume (student_id : string) : M ResumeInfo.t :=
  try_except
    (let* oid := ObjectId student_id in
     let* student := find_one_by_id oid in
     match student with
     | None => raise (HTTPException 404 "Student not found")
     | Some student =>
         match Student.resumeFile student with
         | None => raise (HTTPException 404 "No resume found")
         | Some resume_data =>
             ret (ResumeInfo.mk
                    oid
                    (ResumeFile.originalName resume_data)
                    ("/api/students/" +:+ student_id +:+ "/resume/download")
                    (ResumeFile.uploadedAt resume_data)
                    (ResumeFile.fileSize resume_data)
                    (Student.resumeAnalysis student))
         end
     end)
    (any_exception_500 "Failed to fetch resume").

(** The name under which an upload is stored:
    [f"resume-{student_id}-{timestamp}-{resume.filename}"]. *)
Definition stored_name (student_id timestamp original : string) : string :=
  "resume-" +:+ student_id +:+ "-" +:+ timestamp +:+ "-" +:+ original.

(** [POST /api/students/{student_id}/resume]; [resume_filename] is
    [resume.filename] and [content] is what [await resume.read()] returns. *)
Definition upload_student_resume (env : Env) (student_id : string)
    (resume_filename : string) (content : list byte) : M ResumeUploadResponse.t :=
  try_except
    (raise_if (negb (endswith resume_filename ".pdf"))
       (HTTPException 400 "Only PDF files are allowed") ;;
     raise_if (len content >? MAX_FILE_SIZE)
       (HTTPException 413 "File too large. Maximum size is 5MB") ;;
     let* oid := ObjectId student_id in
     let* student := find_one_by_id oid in
     match student with
     | None => raise (HTTPException 404 "Student not found")
     | Some student =>
         let timestamp := now_strftime env in
         let filename := stored_name student_id timestamp resume_filename in
         let file_path := path_join UPLOAD_DIR filename in
         (* Delete old resume file if it exists *)
         match Student.resumeFile student with
         | Some old =>
             let old_file_path := ResumeFile.filePath old in
             let* present := path_exists old_file_path in
             if present
             then try_except (unlink env old_file_path) (fun _ => ret tt)
             else ret tt
         | None => ret tt
         end ;;
         (* Save new file *)
         write_file env file_path content ;;
         (* Update student document *)
         let resume_data :=
           ResumeFile.mk resume_filename filename file_path (len content)
                         (now_isoformat env) in
         update_one env oid (Student.set_resumeFile resume_data) ;;
         ret (ResumeUploadResponse.mk
                "Resume uploaded successfully"
                (ResumeInfo.mk
                   oid
                   (ResumeFile.originalName resume_data)
                   ("/api/students/" +:+ student_id +:+ "/resume/download")
                   (ResumeFile.uploadedAt resume_data)
                   (ResumeFile.fileSize resume_data)
                   None))
     end)
    (reraise_http_else_500 "Failed to upload resume").

(** [GET /api/students/{student_id}/resume/download] *)
Definition download_student_resume (student_id : string) : M FileResponse.t :=
  try_except
    (let* oid := ObjectId student_id in
     let* student := find_one_by_id oid in
     match student ≫= Student.resumeFile with
     | None => raise (HTTPException 404 "Resume not found")
     | Some resume_data =>
         let file_path := ResumeFile.filePath resume_data in
         fun w =>
           match files w !! file_path with
           | None => (inl (HTTPException 404 "Resume file not found on disk"), w)
           | Some bytes =>
               (inr (FileResponse.mk file_path
                       (ResumeFile.originalName resume_data)
                       "application/pdf" bytes), w)
           end
     end)
    (reraise_http_else_500 "Failed to download resume").

(** The mock analysis built by [analyze_student_resume]; 8.5 is 17/2. *)
Definition mock_analysis (now : string) : ResumeAnalysis.t :=
  ResumeAnalysis.mk
    (17 # 2)
    [ ("bulletPoints", 8); ("header", 9); ("education", 8); ("experience", 9);
      ("secondarySections", 7); ("formatting", 8); ("language", 8);
      ("contentQuality", 9); ("targeting", 8); ("universalStandards", 8) ]
    [ "Strong technical skills section";
      "Quantified achievements in experience";
      "Clear and concise formatting" ]
    [ "Add more specific metrics to bullet points";
      "Include relevant keywords for target roles" ]
    "Strong resume with good technical content and clear structure."
    now.

(** [POST /api/students/{student_id}/resume/analyze] *)
Definition analyze_student_resume (env : Env) (student_id : string) : M AnalyzeResponse.t :=
  try_except
    (let* oid := ObjectId student_id in
     let* student := find_one_by_id oid in
     match student with
     | None => raise (HTTPException 404 "Student not found")
     | Some student =>
         match Student.resumeFile student with
         | None =>
             raise (HTTPException 400
                      "No resume file found. Please upload a resume first.")
         | Some _ =>
             let analysis := mock_analysis (now_isoformat env) in
             update_one env oid (Student.set_resumeAnalysis analysis) ;;
             ret (AnalyzeResponse.mk "Resume analyzed successfully" analysis)
         end
     end)
    (reraise_http_else_500 "Failed to analyze resume").

(** [DELETE /api/students/{student_id}/resume] *)
Definition delete_student_resume (env : Env) (student_id : string) : M string :=
  try_except
    (let* oid := ObjectId student_id in
     let* student := find_one_by_id oid in
     match student with
     | None => raise (HTTPException 404 "Student not found")
     | Some student =>
         match Student.resumeFile student with
         | None => raise (HTTPException 404 "No resume found")
         | Some resume_data =>
             (* Delete file from disk *)
             let file_path := ResumeFile.filePath resume_data in
             let* present := path_exists file_path in
             (if present
              then try_except (unlink env file_path) (fun _ => ret tt)
              else ret tt) ;;
             (* Clear resume data from student *)
             update_one env oid Student.unset_resume ;;
             ret "Resume deleted successfully"
         end
     end)
    (reraise_http_else_500 "Failed to delete resume").

(** ** Student management endpoints *)

(** [GET /api/students/{student_id}]: the document and its [_id] as text. *)
Definition get_student (student_id : string) : M (string * Student.t) :=
  try_except
    (let* oid := ObjectId student_id in
     let* student := find_one_by_id oid in
     match student with
     | None => raise (HTTPException 404 "Student not found")
     | Some student => ret (oid, student)
     end)
    (reraise_http_else_500 "Failed to fetch student").

(** [student.dict()] updated with [isActive], [createdAt] and [lastLogin]. *)
Definition student_data (env : Env) (student : StudentCreate.t) : Student.t :=
  Student.mk
    (StudentCreate.name student) (StudentCreate.email student)
    (StudentCreate.university student) (StudentCreate.major student)
    (StudentCreate.graduationYear student)
    (StudentCreate.skills student) (StudentCreate.interests student)
    (StudentCreate.careerGoals student) (StudentCreate.jobPreferences student)
    true (now_isoformat env) (now_isoformat' env)
    None None None.

(** [POST /api/students] *)
Definition create_student (env : Env) (student : StudentCreate.t) : M CreatedStudent.t :=
  try_except
    (let* existing_student := find_one_by_email (StudentCreate.email student) in
     match existing_student with
     | Some _ =>
         raise (HTTPException 409 "Student with this email already exists")
     | None =>
         let doc := student_data env student in
         let* new_id := insert_one env doc in
         ret (CreatedStudent.mk new_id (Student.name doc) (Student.email doc)
                (Student.university doc) (Student.major doc))
     end)
    (reraise_http_else_500 "Failed to create student").

(** ** What the client sees *)

(** The status code of the answer: 200 for a returned value, the code of the
    raised [HTTPException] otherwise (the framework answers 500 for any other
    exception). *)
Definition status_of {A} (r : exn + A) : Z :=
  match r with
  | inr _ => 200
  | inl (HTTPException code _) => code
  | inl _ => 500
  end.

(** The error kinds of the design and the status codes they are served
    with. *)
Inductive ErrorKind :=
| ValidationError | NotFoundError | ConflictError | InternalError.

Definition error_kind (status : Z) : option ErrorKind :=
  if status =? 400 then Some ValidationError
  else if status =? 413 then Some ValidationError
  else if status =? 404 then Some NotFoundError
  else if status =? 409 then Some ConflictError
  else if status =? 500 then Some InternalError
  else None.

(** ** Properties of worlds *)

(** No student record points at a path that is not on disk. *)
Definition referenced_files_present (w : World) : Prop :=
  forall oid s rf,
    students_collection w !! oid = Some s ->
    Student.resumeFile s = Some rf ->
    is_Some (files w !! ResumeFile.filePath rf).

(** [email] is unique across the collection. *)
Definition email_unique (db : gmap string Student.t) : Prop :=
  forall i j s t,
    db !! i = Some s -> db !! j = Some t ->
    Student.email s = Student.email t -> i = j.

(** The stored analysis of a student, if the student and the key exist. *)
Definition analysis_of (w : World) (oid : string) : option ResumeAnalysis.t :=
  students_collection w !! oid ≫= Student.resumeAnalysis.

(** ** Upload, step by step

    The values [upload_student_resume] computes on its way, named so that
    its outcomes can be stated. *)

(** [file_path] *)
Definition new_file_path (env : Env) (student_id resume_filename : string) : string :=
  path_join UPLOAD_DIR (stored_name student_id (now_strftime env) resume_filename).

(** [resume_data] *)
Definition new_resume_data (env : Env) (student_id resume_filename : string)
    (content : list byte) : ResumeFile.t :=
  ResumeFile.mk resume_filename
    (stored_name student_id (now_strftime env) resume_filename)
    (new_file_path env student_id resume_filename)
    (len content) (now_isoformat env).

(** The returned [ResumeUploadResponse]. *)
Definition upload_response (env : Env) (student_id resume_filename : string)
    (content : list byte) : ResumeUploadResponse.t :=
  ResumeUploadResponse.mk "Resume uploaded successfully"
    (ResumeInfo.mk (object_id_text student_id) resume_filename
       ("/api/students/" +:+ student_id +:+ "/resume/download")
       (now_isoformat env) (len content) None).

(** The upload directory once the block "Delete old resume file if it
    exists" has run, before anything new is written. *)
Definition files_after_cleanup (env : Env) (student : Student.t)
    (disk : gmap string (list byte)) : gmap string (list byte) :=
  match Student.resumeFile student with
  | Some old =>
      if bool_decide (is_Some (disk !! ResumeFile.filePath old))
      then if unlink_raises env then disk else delete (ResumeFile.filePath old) disk
      else disk
  | None => disk
  end.

(** ** Listing students *)

(** [students_collection.find({}, {"resumeFile": 0, "resumeText": 0,
    "resumeAnalysis": 0})] followed by [student["_id"] = str(student["_id"])]:
    every document with the three resume keys projected out, beside its
    identifier as text.  The order of the cursor is the server's and is not
    modelled: the list comes in the order of the map. *)
Definition find_all_without_resume (env : Env) : M (list (string * Student.t)) :=
  fun w =>
    if find_raises env then (inl PyMongoError, w)
    else (inr (List.map (fun kv => (fst kv, Student.unset_resume (snd kv)))
                 (map_to_list (students_collection w))), w).

(** [GET /api/students] *)
Definition get_students (env : Env) : M (list (string * Student.t)) :=
  try_except
    (let* students := find_all_without_resume env in
     ret students)
    (any_exception_500 "Failed to fetch students").

(** ** Further properties of worlds *)

(** Every stored [fileSize] is within the upload limit. *)
Definition sizes_bounded (db : gmap string Student.t) : Prop :=
  forall oid s rf,
    db !! oid = Some s ->
    Student.resumeFile s = Some rf ->
    ResumeFile.fileSize rf <= MAX_FILE_SIZE.

(** The document with its [resumeAnalysis] key dropped: every other key. *)
Definition without_resumeAnalysis (s : Student.t) : Student.t :=
  Student.mk (Student.name s) (Student.email s) (Student.university s)
    (Student.major s) (Student.graduationYear s) (Student.skills s)
    (Student.interests s) (Student.careerGoals s) (Student.jobPreferences s)
    (Student.isActive s) (Student.createdAt s) (Student.lastLogin s)
    (Student.resumeFile s) (Student.resumeText s) None.

(** ** Sample data *)

Definition sample_id : string := "507f1f77bcf86cd799439011".

Definition pdf_bytes : list byte := [x25; x50; x44; x46; x2d; x31; x2e; x34; x0a]%byte.

Definition quiet_env : Env :=
  mkEnv "20240101120000" "2024-01-01T12:00:00.000001" "2024-01-01T12:00:00.000002"
        "65a000000000000000000001" false WriteCompletes false false false.

Definition sample_student : Student.t :=
  Student.mk "A" "a@x.com" (Some "Test University") (Some "Computer Science")
    (Some 2024) [] [] [] [] true "2023-12-31T09:00:00" "2023-12-31T09:00:00"
    None None None.

Definition sample_request : StudentCreate.t :=
  StudentCreate.mk "B" "a@x.com" None None None [] [] [] [].

Definition fresh_request : StudentCreate.t :=
  StudentCreate.mk "B" "b@x.com" (Some "Other University") None None
    ["coq"] [] [] [].

Definition old_resume : ResumeFile.t :=
  ResumeFile.mk "old.pdf" "resume-507f1f77bcf86cd799439011-20231231090000-old.pdf"
    "uploads/resumes/resume-507f1f77bcf86cd799439011-20231231090000-old.pdf"
    3 "2023-12-31T09:00:00".

Definition empty_world : World := mkWorld ∅ ∅.

(** One student, no resume. *)
Definition world_without_resume : World :=
  mkWorld {[ sample_id := sample_student ]} ∅.

(** One student whose resume is stored on disk. *)
Definition world_with_resume : World :=
  mkWorld {[ sample_id := Student.set_resumeFile old_resume sample_student ]}
          {[ ResumeFile.filePath old_resume := [x25; x50; x44]%byte ]}.

(** A second student, with another profile, another resume and an earlier
    analysis of a different score. *)
Definition other_id : string := "65A0000000000000000000FF".

Definition other_resume : ResumeFile.t :=
  ResumeFile.mk "thesis.pdf" "resume-65A0000000000000000000FF-20240202080000-thesis.pdf"
    "uploads/resumes/resume-65A0000000000000000000FF-20240202080000-thesis.pdf"
    2 "2024-02-02T08:00:00".

Definition earlier_analysis : ResumeAnalysis.t :=
  ResumeAnalysis.mk (3 # 1) [("header", 3)] [] ["Everything"] "Weak." "2024-02-03T08:00:00".

Definition other_student : Student.t :=
  Student.mk "C" "c@y.org" None (Some "History") (Some 2026) ["latin"] [] [] []
    true "2024-02-01T08:00:00" "2024-02-01T08:00:00"
    (Some other_resume) None (Some earlier_analysis).

Definition two_students_world : World :=
  mkWorld {[ sample_id := sample_student;
             "65a0000000000000000000ff" := other_student ]}
          {[ ResumeFile.filePath other_resume := [x25; x50]%byte ]}.

Definition later_env : Env :=
  mkEnv "20240301101500" "2024-03-01T10:15:00.000001" "2024-03-01T10:15:00.000002"
        "65a000000000000000000002" false WriteCompletes false false false.

(** The upload directory refuses the new file. *)
Definition disk_full_env : Env :=
  mkEnv "20240101120000" "2024-01-01T12:00:00.000001" "2024-01-01T12:00:00.000002"
        "65a000000000000000000001" false OpenFails false false false.

(** The old file cannot be removed. *)
Definition unlink_fails_env : Env :=
  mkEnv "20240101120000" "2024-01-01T12:00:00.000001" "2024-01-01T12:00:00.000002"
        "65a000000000000000000001" true WriteCompletes false false false.

(** A record that points at a file which is not on disk. *)
Definition world_with_dangling_resume : World :=
  mkWorld {[ sample_id := Student.set_resumeFile old_resume sample_student ]} ∅.

(** A second upload, a minute later, of other bytes under another name. *)
Definition minute_later_env : Env :=
  mkEnv "20240101120100" "2024-01-01T12:01:00.000001" "2024-01-01T12:01:00.000002"
        "65a000000000000000000003" false WriteCompletes false false false.

Definition other_bytes : list byte := [x25; x50; x44; x46; x0a; x42]%byte.

(** The listing cannot read its cursor. *)
Definition cursor_fails_env : Env :=
  mkEnv "20240101120000" "2024-01-01T12:00:00.000001" "2024-01-01T12:00:00.000002"
        "65a000000000000000000001" false WriteCompletes false false true.

(** An id of 24 characters that bson accepts although it has blanks. *)
Definition blank_id : string := "507f1f77bcf86cd79943  11".

(** The database refuses the update. *)
Definition update_fails_env : Env :=
  mkEnv "20240101120000" "2024-01-01T12:00:00.000001" "2024-01-01T12:00:00.000002"
        "65a000000000000000000001" false WriteCompletes true false false.

(** A file one byte over the limit, and one exactly at the limit. *)
Definition oversized : list byte := replicate (Z.to_nat (MAX_FILE_SIZE + 1)) x00.
Definition at_limit : list byte := replicate (Z.to_nat MAX_FILE_SIZE) x00.

(** * Proofs *)

(** ** Stepping through a request *)

Ltac unfold_request :=
  unfold get_student_resume, upload_student_resume, download_student_resume,
         analyze_student_resume, delete_student_resume, get_student,
         create_student in *.

Ltac unfold_monad :=
  unfold reraise_http_else_500, any_exception_500, raise_if, find_one_by_id,
         find_one_by_email, ObjectId, update_one, insert_one, unlink, write_file,
         path_exists, try_except, bind, ret, raise in *.

Ltac step_request := unfold_request; unfold_monad; simpl in *.

Ltac crunch_request :=
  step_request;
  repeat (case_match; simplify_eq; simpl in * ); auto.

Lemma len_oversized : len oversized = MAX_FILE_SIZE + 1.
Proof.
  unfold len, oversized. rewrite length_replicate.
  apply Z2Nat.id. unfold MAX_FILE_SIZE. lia.
Qed.

Lemma len_at_limit : len at_limit = MAX_FILE_SIZE.
Proof.
  unfold len, at_limit. rewrite length_replicate.
  apply Z2Nat.id. unfold MAX_FILE_SIZE. lia.
Qed.

(** ** Upload: the two validation steps *)

Lemma upload_rejects_other_suffix env sid fname content w :
  endswith fname ".pdf" = false ->
  upload_student_resume env sid fname content w
  = (inl (HTTPException 400 "Only PDF files are allowed"), w).
Proof. intros H. step_request. now rewrite H. Qed.

Lemma upload_rejects_oversized env sid fname content w :
  endswith fname ".pdf" = true ->
  len content > MAX_FILE_SIZE ->
  upload_student_resume env sid fname content w
  = (inl (HTTPException 413 "File too large. Maximum size is 5MB"), w).
Proof.
  intros H Hlen. step_request. rewrite H. simpl.
  destruct (Z.gtb_spec (len content) MAX_FILE_SIZE) as [_|Hle]; [reflexivity | lia].
Qed.

Lemma upload_size_check_passes env sid fname content w :
  len content <= MAX_FILE_SIZE ->
  status_of (fst (upload_student_resume env sid fname content w)) <> 413.
Proof.
  intros Hlen. step_request.
  destruct (endswith fname ".pdf"); simpl; [|discriminate].
  destruct (Z.gtb_spec (len content) MAX_FILE_SIZE) as [Hgt|_]; [lia|].
  repeat (case_match; simplify_eq; simpl in *; try discriminate).
Qed.

(** C4, as stated, fails: an oversized upload whose name does not end in
    [.pdf] is answered 400 by the file-type check, which runs first, and
    not 413. *)
Lemma oversized_upload_not_always_413 :
  len oversized > MAX_FILE_SIZE /\
  status_of (fst (upload_student_resume quiet_env sample_id "notes.txt"
                    oversized world_without_resume)) = 400 /\
  status_of (fst (upload_student_resume quiet_env sample_id "notes.txt"
                    oversized world_without_resume)) <> 413.
Proof.
  split; [rewrite len_oversized; lia|].
  rewrite upload_rejects_other_suffix by reflexivity.
  split; [reflexivity | discriminate].
Qed.

(** C4 (amended): an upload whose content is strictly longer than 5 MiB
    always fails validation and leaves the world untouched: with 413 when the
    name ends in [.pdf], with 400 from the earlier file-type check otherwise.
    An upload of exactly 5 MiB is not rejected by the size check. *)
Theorem upload_size_limit env sid fname content w :
  (len content > MAX_FILE_SIZE ->
   let r := upload_student_resume env sid fname content w in
   status_of (fst r) = (if endswith fname ".pdf" then 413 else 400) /\
   error_kind (status_of (fst r)) = Some ValidationError /\
   snd r = w) /\
  (len content = MAX_FILE_SIZE ->
   status_of (fst (upload_student_resume env sid fname content w)) <> 413).
Proof.
  split.
  - intros Hlen r. subst r.
    destruct (endswith fname ".pdf") eqn:Hpdf.
    + rewrite upload_rejects_oversized by assumption. now simpl.
    + rewrite upload_rejects_other_suffix by assumption. now simpl.
  - intros Hlen. apply upload_size_check_passes. lia.
Qed.

Lemma upload_size_limit_witness :
  (status_of (fst (upload_student_resume quiet_env sample_id "cv.pdf"
                     oversized world_without_resume)) = 413 /\
   status_of (fst (upload_student_resume quiet_env sample_id "notes.txt"
                     oversized world_without_resume)) = 400) /\
  status_of (fst (upload_student_resume quiet_env sample_id "cv.pdf"
                    at_limit world_without_resume)) <> 413.
Proof.
  assert (Hbig : len oversized > MAX_FILE_SIZE) by (rewrite len_oversized; lia).
  split; [split|].
  - exact (proj1 (proj1 (upload_size_limit quiet_env sample_id "cv.pdf"
                           oversized world_without_resume) Hbig)).
  - exact (proj1 (proj1 (upload_size_limit quiet_env sample_id "notes.txt"
                           oversized world_without_resume) Hbig)).
  - exact (proj2 (upload_size_limit quiet_env sample_id "cv.pdf"
                    at_limit world_without_resume) len_at_limit).
Defined.

(** ** Fetching resume metadata *)

(** Whatever is raised inside [get_student_resume] leaves it as a 500. *)
Lemma get_student_resume_status sid w :
  status_of (fst (get_student_resume sid w)) = 200 \/
  status_of (fst (get_student_resume sid w)) = 500.
Proof.
  step_request.
  repeat (case_match; simplify_eq; simpl in *); auto.
Qed.

(** C2: the code does not do this.  [get_student_resume] raises its two 404s
    inside a [try] whose only clause is [except Exception], so both reach the
    client as 500: for an absent student, for a student without a resume,
    and in general the endpoint never answers 404. *)
Theorem get_student_resume_answers_500_for_missing :
  fst (get_student_resume sample_id empty_world)
    = inl (HTTPException 500 "Failed to fetch resume") /\
  fst (get_student_resume sample_id world_without_resume)
    = inl (HTTPException 500 "Failed to fetch resume") /\
  (forall sid w,
     error_kind (status_of (fst (get_student_resume sid w))) <> Some NotFoundError).
Proof.
  split; [reflexivity|]. split; [reflexivity|].
  intros sid w.
  destruct (get_student_resume_status sid w) as [-> | ->]; discriminate.
Qed.

(** ** Fetching a student *)

Lemma get_student_malformed sid w :
  is_object_id sid = false ->
  get_student sid w = (inl (HTTPException 500 "Failed to fetch student"), w).
Proof. intros H. step_request. now rewrite H. Qed.

Lemma get_student_absent sid w :
  is_object_id sid = true ->
  students_collection w !! object_id_text sid = None ->
  get_student sid w = (inl (HTTPException 404 "Student not found"), w).
Proof. intros H Hnone. step_request. rewrite H. simpl. now rewrite Hnone. Qed.

(** C8, as stated, fails: an id that [ObjectId] rejects is answered 500,
    whose kind is not [NotFoundError]. *)
Lemma malformed_id_is_not_404 :
  is_object_id "not-an-id" = false /\
  status_of (fst (get_student "not-an-id" empty_world)) = 500 /\
  error_kind (status_of (fst (get_student "not-an-id" empty_world)))
    <> Some NotFoundError.
Proof. split; [reflexivity|]. split; [reflexivity|discriminate]. Qed.

(** C8 (amended): for every id string that [ObjectId] rejects (one that
    does not have 24 characters, or that [bytes.fromhex] does not accept),
    fetching that student fails with the generic internal error (HTTP 500)
    and changes nothing, whereas an accepted id of an absent student, be it
    24 hexadecimal digits or 24 characters with blanks among the digit pairs,
    fails with NotFoundError (HTTP 404). *)
Theorem get_student_malformed_id_500 sid w :
  is_object_id sid = false ->
  get_student sid w = (inl (HTTPException 500 "Failed to fetch student"), w) /\
  error_kind (status_of (fst (get_student sid w))) = Some InternalError /\
  (forall sid',
     is_object_id sid' = true ->
     students_collection w !! object_id_text sid' = None ->
     error_kind (status_of (fst (get_student sid' w))) = Some NotFoundError).
Proof.
  intros H. rewrite get_student_malformed by assumption.
  split; [reflexivity|]. split; [reflexivity|].
  intros sid' Hok Hnone. now rewrite get_student_absent.
Qed.

Lemma get_student_malformed_id_500_witness :
  get_student "xyz" world_without_resume
    = (inl (HTTPException 500 "Failed to fetch student"), world_without_resume) /\
  error_kind (status_of (fst (get_student "65a000000000000000000001"
                                world_without_resume))) = Some NotFoundError /\
  error_kind (status_of (fst (get_student blank_id world_without_resume)))
    = Some NotFoundError.
Proof.
  destruct (get_student_malformed_id_500 "xyz" world_without_resume eq_refl)
    as (H1 & _ & H3).
  split; [exact H1|].
  split; apply H3; reflexivity.
Defined.

(** ** Analyze *)

Section Analyze.
Variables (env : Env) (sid : string) (w : World) (student : Student.t).
Hypothesis Hid : is_object_id sid = true.
Hypothesis Hfound :
  students_collection w !! object_id_text sid = Some student.

Lemma analyze_without_resume :
  Student.resumeFile student = None ->
  analyze_student_resume env sid w
  = (inl (HTTPException 400 "No resume file found. Please upload a resume first."), w).
Proof.
  intros Hnone. step_request. rewrite Hid. simpl.
  rewrite Hfound, Hnone. reflexivity.
Qed.

Lemma analyze_with_resume rf :
  Student.resumeFile student = Some rf ->
  analyze_student_resume env sid w
  = if update_raises env
    then (inl (HTTPException 500 "Failed to analyze resume"), w)
    else (inr (AnalyzeResponse.mk "Resume analyzed successfully"
                 (mock_analysis (now_isoformat env))),
          mkWorld (alter (Student.set_resumeAnalysis (mock_analysis (now_isoformat env)))
                     (object_id_text sid) (students_collection w))
                  (files w)).
Proof.
  intros Hsome. step_request. rewrite Hid. simpl.
  rewrite Hfound, Hsome. now destruct (update_raises env).
Qed.
End Analyze.

(** C6, as stated, fails in its last part: with the resumeFile record
    present, analyze does not succeed when the database update raises; it
    answers 500 and stores nothing. *)
Lemma analyze_fails_when_update_fails :
  (exists student rf,
     students_collection world_with_resume !! object_id_text sample_id = Some student /\
     Student.resumeFile student = Some rf) /\
  analyze_student_resume update_fails_env sample_id world_with_resume
    = (inl (HTTPException 500 "Failed to analyze resume"), world_with_resume) /\
  ~ exists r, fst (analyze_student_resume update_fails_env sample_id world_with_resume)
              = inr r.
Proof.
  split; [|split].
  - exists (Student.set_resumeFile old_resume sample_student), old_resume.
    split; reflexivity.
  - reflexivity.
  - intros [r Hr]. discriminate.
Qed.

(** C6 (amended): for an existing student, analyze answers 400 exactly when
    the record has no resumeFile; and when the resumeFile is present the
    outcome is the same for every content of the upload directory, the
    referenced binary being on disk or not, and is a success whenever the
    database update goes through, and a 500 when it raises. *)
Theorem analyze_400_iff_no_resume env sid w student :
  is_object_id sid = true ->
  students_collection w !! object_id_text sid = Some student ->
  (status_of (fst (analyze_student_resume env sid w)) = 400
   <-> Student.resumeFile student = None) /\
  (status_of (fst (analyze_student_resume env sid w)) = 400 ->
   error_kind (status_of (fst (analyze_student_resume env sid w)))
     = Some ValidationError) /\
  (Student.resumeFile student <> None ->
   forall disk,
     fst (analyze_student_resume env sid (mkWorld (students_collection w) disk))
       = fst (analyze_student_resume env sid w) /\
     (update_raises env = false ->
      fst (analyze_student_resume env sid (mkWorld (students_collection w) disk))
        = inr (AnalyzeResponse.mk "Resume analyzed successfully"
                 (mock_analysis (now_isoformat env)))) /\
     (update_raises env = true ->
      fst (analyze_student_resume env sid (mkWorld (students_collection w) disk))
        = inl (HTTPException 500 "Failed to analyze resume"))).
Proof.
  intros Hid Hfound. split; [|split].
  - destruct (Student.resumeFile student) as [rf|] eqn:Hrf.
    + rewrite (analyze_with_resume env sid w student Hid Hfound rf Hrf).
      destruct (update_raises env); simpl; split; discriminate.
    + rewrite (analyze_without_resume env sid w student Hid Hfound Hrf).
      simpl. split; reflexivity.
  - intros ->. reflexivity.
  - intros Hsome disk.
    destruct (Student.resumeFile student) as [rf|] eqn:Hrf; [|congruence].
    rewrite (analyze_with_resume env sid w student Hid Hfound rf Hrf).
    rewrite (analyze_with_resume env sid (mkWorld (students_collection w) disk)
               student Hid Hfound rf Hrf).
    split; [|split].
    + now destruct (update_raises env).
    + now intros ->.
    + now intros ->.
Qed.

Lemma analyze_400_iff_no_resume_witness :
  status_of (fst (analyze_student_resume quiet_env sample_id world_without_resume)) = 400 /\
  fst (analyze_student_resume quiet_env sample_id world_with_dangling_resume)
    = inr (AnalyzeResponse.mk "Resume analyzed successfully"
             (mock_analysis (now_isoformat quiet_env))) /\
  fst (analyze_student_resume update_fails_env sample_id world_with_dangling_resume)
    = inl (HTTPException 500 "Failed to analyze resume").
Proof.
  split; [|split].
  - apply (proj1 (analyze_400_iff_no_resume quiet_env sample_id
                    world_without_resume sample_student eq_refl eq_refl)).
    reflexivity.
  - apply (proj2 (proj2 (analyze_400_iff_no_resume quiet_env sample_id
                    world_with_resume (Student.set_resumeFile old_resume sample_student)
                    eq_refl eq_refl)));
      [discriminate | reflexivity].
  - destruct (proj2 (proj2 (analyze_400_iff_no_resume update_fails_env sample_id
                    world_with_resume (Student.set_resumeFile old_resume sample_student)
                    eq_refl eq_refl)) ltac:(discriminate) ∅) as (_ & _ & Hfail).
    apply Hfail. reflexivity.
Defined.

(** ** Creating a student *)

Lemma find_email_hit (db : gmap string Student.t) (e : string) i s :
  db !! i = Some s -> Student.email s = e ->
  List.find (fun kv => String.eqb (Student.email (snd kv)) e) (map_to_list db) <> None.
Proof.
  intros Hi He Hnone.
  assert (Hin : In (i, s) (map_to_list db))
    by (apply list_elem_of_In, elem_of_map_to_list; exact Hi).
  pose proof (List.find_none _ _ Hnone (i, s) Hin) as Hf.
  simpl in Hf. apply String.eqb_neq in Hf. contradiction.
Qed.

Lemma find_email_miss (db : gmap string Student.t) (e : string) :
  List.find (fun kv => String.eqb (Student.email (snd kv)) e) (map_to_list db) = None ->
  forall i s, db !! i = Some s -> Student.email s <> e.
Proof.
  intros Hnone i s Hi He.
  now apply (find_email_hit db e i s Hi He).
Qed.

Lemma create_student_conflict env req w i s :
  students_collection w !! i = Some s ->
  Student.email s = StudentCreate.email req ->
  create_student env req w
  = (inl (HTTPException 409 "Student with this email already exists"), w).
Proof.
  intros Hi He. step_request.
  destruct (List.find _ _) eqn:Hfind; [reflexivity|].
  exfalso. exact (find_email_hit _ _ i s Hi He Hfind).
Qed.

Lemma email_unique_insert (db : gmap string Student.t) k doc :
  email_unique db ->
  (forall i s, db !! i = Some s -> Student.email s <> Student.email doc) ->
  email_unique (<[k := doc]> db).
Proof.
  intros Huniq Hfresh i j s t Hi Hj He.
  rewrite lookup_insert in Hi, Hj.
  destruct (decide (k = i)) as [Hki|Hki], (decide (k = j)) as [Hkj|Hkj];
    simplify_eq.
  - reflexivity.
  - exfalso. exact (Hfresh j t Hj (eq_sym He)).
  - exfalso. exact (Hfresh i s Hi He).
  - exact (Huniq i j s t Hi Hj He).
Qed.

Lemma create_student_keeps_email_unique env req w :
  email_unique (students_collection w) ->
  email_unique (students_collection (snd (create_student env req w))).
Proof.
  intros Huniq. step_request.
  destruct (List.find _ _) eqn:Hfind; simpl; [exact Huniq|].
  destruct (insert_raises env); simpl; [exact Huniq|].
  destruct (students_collection w !! inserted_id env); simpl; [exact Huniq|].
  apply email_unique_insert; [exact Huniq|].
  intros i s Hi. simpl. exact (find_email_miss _ _ Hfind i s Hi).
Qed.

(** C7: when some student already has the email of the request, create
    fails with 409 (ConflictError) whatever the other fields of the request
    are, and the world is unchanged; and every create, failing or not,
    preserves uniqueness of email across the collection. *)
Theorem create_student_duplicate_email env req w :
  (forall i s,
     students_collection w !! i = Some s ->
     Student.email s = StudentCreate.email req ->
     create_student env req w
       = (inl (HTTPException 409 "Student with this email already exists"), w) /\
     error_kind (status_of (fst (create_student env req w))) = Some ConflictError) /\
  (email_unique (students_collection w) ->
   email_unique (students_collection (snd (create_student env req w)))).
Proof.
  split.
  - intros i s Hi He.
    rewrite (create_student_conflict env req w i s Hi He). now split.
  - apply create_student_keeps_email_unique.
Qed.

Lemma email_unique_singleton i (s : Student.t) : email_unique {[ i := s ]}.
Proof.
  intros a b x y Ha Hb _.
  apply lookup_singleton_Some in Ha as [<- _].
  apply lookup_singleton_Some in Hb as [<- _].
  reflexivity.
Qed.

Lemma create_student_duplicate_email_witness :
  create_student quiet_env sample_request world_without_resume
    = (inl (HTTPException 409 "Student with this email already exists"),
       world_without_resume) /\
  email_unique (students_collection
                  (snd (create_student quiet_env fresh_request world_without_resume))).
Proof.
  split.
  - apply (proj1 (create_student_duplicate_email quiet_env sample_request
                    world_without_resume) sample_id sample_student);
      reflexivity.
  - apply (proj2 (create_student_duplicate_email quiet_env fresh_request
                    world_without_resume)).
    apply email_unique_singleton.
Defined.

(** ** Upload after validation *)

Section Upload.
Variables (env : Env) (sid fname : string) (content : list byte) (w : World).
Variable student : Student.t.
Hypothesis Hpdf : endswith fname ".pdf" = true.
Hypothesis Hlen : len content <= MAX_FILE_SIZE.
Hypothesis Hid : is_object_id sid = true.
Hypothesis Hfound :
  students_collection w !! object_id_text sid = Some student.

Lemma upload_validated :
  upload_student_resume env sid fname content w
  = let disk := files_after_cleanup env student (files w) in
    let file_path := new_file_path env sid fname in
    let failed := inl (HTTPException 500 "Failed to upload resume") in
    match write_does env with
    | OpenFails => (failed, mkWorld (students_collection w) disk)
    | WriteFails written =>
        (failed, mkWorld (students_collection w) (<[file_path := written]> disk))
    | WriteCompletes =>
        if update_raises env
        then (failed, mkWorld (students_collection w) (<[file_path := content]> disk))
        else (inr (upload_response env sid fname content),
              mkWorld (alter (Student.set_resumeFile (new_resume_data env sid fname content))
                         (object_id_text sid) (students_collection w))
                      (<[file_path := content]> disk))
    end.
Proof.
  destruct w as [db disk]. step_request. rewrite Hpdf. simpl.
  destruct (Z.gtb_spec (len content) MAX_FILE_SIZE) as [Hgt|_]; [lia|].
  simpl. rewrite Hid. simpl. rewrite Hfound.
  unfold files_after_cleanup, new_file_path, upload_response, new_resume_data.
  destruct (Student.resumeFile student) as [old|]; simpl.
  - destruct (bool_decide (is_Some (disk !! ResumeFile.filePath old))); simpl;
      destruct (unlink_raises env), (write_does env), (update_raises env);
      reflexivity.
  - destruct (write_does env), (update_raises env); reflexivity.
Qed.
End Upload.

(** Either the request is turned away before the student is fetched (or the
    student is not there), with the world as it was, or the preconditions of
    [upload_validated] hold. *)
Lemma upload_cases env sid fname content w :
  (exists e, upload_student_resume env sid fname content w = (inl e, w)) \/
  (exists student,
     endswith fname ".pdf" = true /\ len content <= MAX_FILE_SIZE /\
     is_object_id sid = true /\
     students_collection w !! object_id_text sid = Some student).
Proof.
  destruct (endswith fname ".pdf") eqn:Hpdf.
  2: { left. eexists. now apply upload_rejects_other_suffix. }
  destruct (Z.gtb_spec (len content) MAX_FILE_SIZE) as [Hgt|Hle].
  { left. eexists. apply upload_rejects_oversized; [assumption|lia]. }
  destruct (is_object_id sid) eqn:Hid.
  2: { left. eexists. step_request. rewrite Hpdf. simpl.
       destruct (Z.gtb_spec (len content) MAX_FILE_SIZE); [lia|].
       simpl. rewrite Hid. reflexivity. }
  destruct (students_collection w !! object_id_text sid) as [student|] eqn:Hfound.
  2: { left. eexists. step_request. rewrite Hpdf. simpl.
       destruct (Z.gtb_spec (len content) MAX_FILE_SIZE); [lia|].
       simpl. rewrite Hid. simpl. rewrite Hfound. reflexivity. }
  right. exists student. auto.
Qed.

(** What a successful upload has done. *)
Lemma upload_success env sid fname content w resp :
  fst (upload_student_resume env sid fname content w) = inr resp ->
  exists student,
    is_object_id sid = true /\
    students_collection w !! object_id_text sid = Some student /\
    snd (upload_student_resume env sid fname content w)
    = mkWorld (alter (Student.set_resumeFile (new_resume_data env sid fname content))
                 (object_id_text sid) (students_collection w))
              (<[new_file_path env sid fname := content]>
                 (files_after_cleanup env student (files w))).
Proof.
  intros Hok.
  destruct (upload_cases env sid fname content w)
    as [[e He] | (student & Hpdf & Hlen & Hid & Hfound)].
  { rewrite He in Hok. discriminate. }
  exists student. split; [assumption|]. split; [assumption|].
  rewrite (upload_validated env sid fname content w student Hpdf Hlen Hid Hfound) in *.
  simpl in *.
  destruct (write_does env); try discriminate.
  destruct (update_raises env); try discriminate.
  reflexivity.
Qed.

(** ** Download *)

Lemma download_stored sid w student rf bytes :
  is_object_id sid = true ->
  students_collection w !! object_id_text sid = Some student ->
  Student.resumeFile student = Some rf ->
  files w !! ResumeFile.filePath rf = Some bytes ->
  download_student_resume sid w
  = (inr (FileResponse.mk (ResumeFile.filePath rf) (ResumeFile.originalName rf)
            "application/pdf" bytes), w).
Proof.
  intros Hid Hfound Hrf Hfile. step_request.
  rewrite Hid. simpl. rewrite Hfound. simpl. rewrite Hrf, Hfile. reflexivity.
Qed.

(** C3: whenever upload accepts a byte sequence for a student, a download
    for that student in the world the upload leaves returns a response whose
    body is exactly those bytes (and whose name is the uploaded name). *)
Theorem upload_download_round_trip env sid fname content w resp :
  fst (upload_student_resume env sid fname content w) = inr resp ->
  let w' := snd (upload_student_resume env sid fname content w) in
  exists file,
    download_student_resume sid w' = (inr file, w') /\
    FileResponse.body file = content /\
    FileResponse.filename file = fname.
Proof.
  intros Hok w'.
  destruct (upload_success env sid fname content w resp Hok)
    as (student & Hid & Hfound & Hw').
  subst w'. rewrite Hw'.
  eexists. split.
  - apply (download_stored sid _ (Student.set_resumeFile
                                    (new_resume_data env sid fname content) student)
             (new_resume_data env sid fname content) content Hid).
    + simpl. rewrite lookup_alter_eq, Hfound. reflexivity.
    + reflexivity.
    + simpl. apply lookup_insert_eq.
  - split; reflexivity.
Qed.

Lemma upload_download_round_trip_witness :
  exists file,
    download_student_resume sample_id
      (snd (upload_student_resume quiet_env sample_id "cv.pdf" pdf_bytes world_with_resume))
    = (inr file,
       snd (upload_student_resume quiet_env sample_id "cv.pdf" pdf_bytes world_with_resume)) /\
    FileResponse.body file = pdf_bytes /\
    FileResponse.filename file = "cv.pdf".
Proof.
  apply (upload_download_round_trip quiet_env sample_id "cv.pdf" pdf_bytes
           world_with_resume
           (upload_response quiet_env sample_id "cv.pdf" pdf_bytes)).
  vm_compute. reflexivity.
Defined.

(** ** What each request writes to the collection *)


Lemma download_student_resume_world sid w : snd (download_student_resume sid w) = w.
Proof. crunch_request. Qed.


Lemma upload_collection env sid fname content w :
  let db' := students_collection (snd (upload_student_resume env sid fname content w)) in
  db' = students_collection w \/
  db' = alter (Student.set_resumeFile (new_resume_data env sid fname content))
          (object_id_text sid) (students_collection w).
Proof.
  destruct (upload_cases env sid fname content w)
    as [[e He] | (student & Hpdf & Hlen & Hid & Hfound)]; simpl.
  - rewrite He. now left.
  - rewrite (upload_validated env sid fname content w student Hpdf Hlen Hid Hfound).
    simpl. destruct (write_does env); try (now left).
    destruct (update_raises env); [now left | now right].
Qed.

Lemma analyze_collection env sid w :
  let db' := students_collection (snd (analyze_student_resume env sid w)) in
  db' = students_collection w \/
  db' = alter (Student.set_resumeAnalysis (mock_analysis (now_isoformat env)))
          (object_id_text sid) (students_collection w).
Proof. crunch_request. Qed.

Lemma delete_collection env sid w :
  let db' := students_collection (snd (delete_student_resume env sid w)) in
  db' = students_collection w \/
  db' = alter Student.unset_resume
          (object_id_text sid) (students_collection w).
Proof. crunch_request. Qed.

Lemma create_collection env req w :
  let db' := students_collection (snd (create_student env req w)) in
  db' = students_collection w \/
  (students_collection w !! inserted_id env = None /\
   db' = <[inserted_id env := student_data env req]> (students_collection w)).
Proof. crunch_request. Qed.

Lemma fmap_alter_absorb {A B} (g : A -> B) (f : A -> A) k (m : gmap string A) oid :
  (forall a, g (f a) = g a) ->
  g <$> alter f k m !! oid = g <$> m !! oid.
Proof.
  intros Hgf. destruct (decide (k = oid)) as [->|Hne].
  - rewrite lookup_alter_eq. destruct (m !! oid); simpl; [now rewrite Hgf | reflexivity].
  - now rewrite lookup_alter_ne.
Qed.

Lemma bind_alter_absorb {A B} (g : A -> option B) (f : A -> A) k (m : gmap string A) oid :
  (forall a, g (f a) = g a) ->
  alter f k m !! oid ≫= g = m !! oid ≫= g.
Proof.
  intros Hgf. destruct (decide (k = oid)) as [->|Hne].
  - rewrite lookup_alter_eq. destruct (m !! oid); simpl; [apply Hgf | reflexivity].
  - now rewrite lookup_alter_ne.
Qed.


(** ** The analysis is a constant *)

Lemma mock_analysis_same_up_to_stamp now now' stamp :
  ResumeAnalysis.with_lastAnalyzed stamp (mock_analysis now)
  = ResumeAnalysis.with_lastAnalyzed stamp (mock_analysis now').
Proof. reflexivity. Qed.

Lemma mock_analysis_score now :
  ResumeAnalysis.overallScore (mock_analysis now) = (17 # 2)%Q /\
  (0 <= ResumeAnalysis.overallScore (mock_analysis now) <= 10)%Q.
Proof. split; [reflexivity|]. simpl. unfold Qle. simpl. lia. Qed.

(** C10: for any two students with a resume present, in any two worlds and
    at any two times, analyze returns an analysis and stores that same
    analysis in the student's record; the two analyses are equal once their
    lastAnalyzed stamps are set to a common value, whatever the resume bytes,
    the profiles and any earlier analyses are; and the overallScore is 8.5,
    which lies between 0 and 10. *)
Theorem analysis_independent_of_student
    env1 env2 sid1 sid2 w1 w2 (s1 s2 : Student.t) :
  is_object_id sid1 = true ->
  students_collection w1 !! object_id_text sid1 = Some s1 ->
  Student.resumeFile s1 <> None ->
  update_raises env1 = false ->
  is_object_id sid2 = true ->
  students_collection w2 !! object_id_text sid2 = Some s2 ->
  Student.resumeFile s2 <> None ->
  update_raises env2 = false ->
  exists a1 a2,
    fst (analyze_student_resume env1 sid1 w1)
      = inr (AnalyzeResponse.mk "Resume analyzed successfully" a1) /\
    fst (analyze_student_resume env2 sid2 w2)
      = inr (AnalyzeResponse.mk "Resume analyzed successfully" a2) /\
    analysis_of (snd (analyze_student_resume env1 sid1 w1))
      (object_id_text sid1) = Some a1 /\
    analysis_of (snd (analyze_student_resume env2 sid2 w2))
      (object_id_text sid2) = Some a2 /\
    (forall stamp,
       ResumeAnalysis.with_lastAnalyzed stamp a1
       = ResumeAnalysis.with_lastAnalyzed stamp a2) /\
    ResumeAnalysis.lastAnalyzed a1 = now_isoformat env1 /\
    ResumeAnalysis.lastAnalyzed a2 = now_isoformat env2 /\
    ResumeAnalysis.overallScore a1 = (17 # 2)%Q /\
    ResumeAnalysis.overallScore a2 = (17 # 2)%Q /\
    (0 <= ResumeAnalysis.overallScore a1 <= 10)%Q /\
    (0 <= ResumeAnalysis.overallScore a2 <= 10)%Q.
Proof.
  intros Hid1 Hf1 Hr1 Hu1 Hid2 Hf2 Hr2 Hu2.
  destruct (Student.resumeFile s1) as [rf1|] eqn:E1; [|congruence].
  destruct (Student.resumeFile s2) as [rf2|] eqn:E2; [|congruence].
  exists (mock_analysis (now_isoformat env1)), (mock_analysis (now_isoformat env2)).
  rewrite (analyze_with_resume env1 sid1 w1 s1 Hid1 Hf1 rf1 E1), Hu1.
  rewrite (analyze_with_resume env2 sid2 w2 s2 Hid2 Hf2 rf2 E2), Hu2.
  unfold analysis_of. simpl fst. simpl snd. simpl students_collection.
  rewrite !lookup_alter_eq, Hf1, Hf2.
  pose proof (mock_analysis_score (now_isoformat env1)) as [Hs1 Hb1].
  pose proof (mock_analysis_score (now_isoformat env2)) as [Hs2 Hb2].
  do 4 (split; [reflexivity|]).
  split; [intros stamp; apply mock_analysis_same_up_to_stamp|].
  do 2 (split; [reflexivity|]).
  split; [exact Hs1|]. split; [exact Hs2|]. split; assumption.
Qed.

Lemma analysis_independent_of_student_witness :
  exists a1 a2,
    fst (analyze_student_resume quiet_env sample_id world_with_resume)
      = inr (AnalyzeResponse.mk "Resume analyzed successfully" a1) /\
    fst (analyze_student_resume later_env other_id two_students_world)
      = inr (AnalyzeResponse.mk "Resume analyzed successfully" a2) /\
    analysis_of (snd (analyze_student_resume quiet_env sample_id world_with_resume))
      (object_id_text sample_id) = Some a1 /\
    analysis_of (snd (analyze_student_resume later_env other_id two_students_world))
      (object_id_text other_id) = Some a2 /\
    (forall stamp,
       ResumeAnalysis.with_lastAnalyzed stamp a1
       = ResumeAnalysis.with_lastAnalyzed stamp a2) /\
    ResumeAnalysis.lastAnalyzed a1 = now_isoformat quiet_env /\
    ResumeAnalysis.lastAnalyzed a2 = now_isoformat later_env /\
    ResumeAnalysis.overallScore a1 = (17 # 2)%Q /\
    ResumeAnalysis.overallScore a2 = (17 # 2)%Q /\
    (0 <= ResumeAnalysis.overallScore a1 <= 10)%Q /\
    (0 <= ResumeAnalysis.overallScore a2 <= 10)%Q.
Proof.
  apply (analysis_independent_of_student quiet_env later_env sample_id other_id
           world_with_resume two_students_world
           (Student.set_resumeFile old_resume sample_student) other_student);
    first [reflexivity | discriminate].
Defined.

(** ** Replace: the order of the three effects *)

Lemma world_with_resume_consistent : referenced_files_present world_with_resume.
Proof.
  intros oid s rf Hs Hrf. unfold world_with_resume in *. simpl in *.
  apply lookup_singleton_Some in Hs as [<- <-].
  simpl in Hrf. injection Hrf as <-.
  eexists. reflexivity.
Qed.

(** C1, as stated, fails: the student has a resume whose file is on disk;
    a replacing upload deletes that file first, then cannot open the new file
    and answers 500; the record still points at the file that is gone. *)
Lemma failed_replace_leaves_missing_file :
  let w' := snd (upload_student_resume disk_full_env sample_id "cv.pdf" pdf_bytes
                   world_with_resume) in
  referenced_files_present world_with_resume /\
  status_of (fst (upload_student_resume disk_full_env sample_id "cv.pdf" pdf_bytes
                    world_with_resume)) = 500 /\
  students_collection w' = students_collection world_with_resume /\
  files w' !! ResumeFile.filePath old_resume = None /\
  files w' !! new_file_path disk_full_env sample_id "cv.pdf" = None /\
  ~ referenced_files_present w'.
Proof.
  intros w'. subst w'.
  split; [apply world_with_resume_consistent|].
  split; [reflexivity|]. split; [reflexivity|].
  split; [reflexivity|]. split; [reflexivity|].
  intros Hall.
  destruct (Hall sample_id (Student.set_resumeFile old_resume sample_student)
              old_resume eq_refl eq_refl) as [bytes Hbytes].
  vm_compute in Hbytes. discriminate.
Qed.

Lemma files_after_cleanup_old env student old disk :
  Student.resumeFile student = Some old ->
  unlink_raises env = false ->
  files_after_cleanup env student disk !! ResumeFile.filePath old = None.
Proof.
  intros Hold Hunlink. unfold files_after_cleanup. rewrite Hold, Hunlink.
  case_bool_decide as Hpresent.
  - apply lookup_delete_eq.
  - destruct (disk !! ResumeFile.filePath old) eqn:E; [|reflexivity].
    exfalso. apply Hpresent. eauto.
Qed.

(** C1 (amended): in upload/replace, for a student that already has a
    stored resume, the old on-disk binary is deleted, best effort, before the
    new binary is written and before the database pointer is updated.  So
    once the request has passed validation and the deletion has not failed,
    the old file is gone (unless the new file takes the very same path),
    whether or not the write and the update then succeed.  The deletion is
    best effort: when it fails the old file stays where it is and the upload
    goes on, succeeding whenever the write and the update do.  An upload that
    succeeds leaves the record pointing at the new path, which holds the
    uploaded bytes; an upload that fails leaves the collection as it was,
    pointing at the old path. *)
Theorem replace_deletes_old_file_first env sid fname content w student old :
  endswith fname ".pdf" = true ->
  len content <= MAX_FILE_SIZE ->
  is_object_id sid = true ->
  students_collection w !! object_id_text sid = Some student ->
  Student.resumeFile student = Some old ->
  let r := fst (upload_student_resume env sid fname content w) in
  let w' := snd (upload_student_resume env sid fname content w) in
  (unlink_raises env = false ->
   ResumeFile.filePath old <> new_file_path env sid fname ->
   files w' !! ResumeFile.filePath old = None) /\
  (forall resp, r = inr resp ->
     students_collection w' !! object_id_text sid
       = Some (Student.set_resumeFile (new_resume_data env sid fname content) student) /\
     files w' !! new_file_path env sid fname = Some content) /\
  (forall e, r = inl e ->
     e = HTTPException 500 "Failed to upload resume" /\
     students_collection w' = students_collection w /\
     (write_does env = OpenFails -> unlink_raises env = false ->
      files w' !! ResumeFile.filePath old = None)) /\
  (write_does env = WriteCompletes -> update_raises env = false ->
   r = inr (upload_response env sid fname content)) /\
  (unlink_raises env = true ->
   ResumeFile.filePath old <> new_file_path env sid fname ->
   files w' !! ResumeFile.filePath old = files w !! ResumeFile.filePath old).
Proof.
  intros Hpdf Hlen Hid Hfound Hold r w'. subst r w'.
  rewrite (upload_validated env sid fname content w student Hpdf Hlen Hid Hfound).
  simpl.
  pose proof (files_after_cleanup_old env student old (files w) Hold) as Hgone.
  split; [|split; [|split; [|split]]].
  - intros Hunlink Hne.
    destruct (write_does env); [destruct (update_raises env)| |]; simpl;
      rewrite ?lookup_insert_ne by congruence; auto.
  - intros resp Hok.
    destruct (write_does env); try discriminate.
    destruct (update_raises env); try discriminate. simpl.
    rewrite lookup_alter_eq, Hfound, lookup_insert_eq. now split.
  - intros e Hfail.
    destruct (write_does env); [destruct (update_raises env)| |];
      simpl in *; try discriminate; injection Hfail as <-;
      (split; [reflexivity|]); (split; [reflexivity|]);
      intros; try discriminate; auto.
  - now intros -> ->.
  - intros Hunlink Hne.
    assert (Hkept : files_after_cleanup env student (files w) = files w).
    { unfold files_after_cleanup. rewrite Hold, Hunlink.
      now destruct (bool_decide _). }
    rewrite Hkept.
    destruct (write_does env); [destruct (update_raises env)| |]; simpl;
      rewrite ?lookup_insert_ne by congruence; reflexivity.
Qed.

Lemma replace_deletes_old_file_first_witness :
  let w' := snd (upload_student_resume disk_full_env sample_id "cv.pdf" pdf_bytes
                   world_with_resume) in
  (files w' !! ResumeFile.filePath old_resume = None /\
   students_collection w' = students_collection world_with_resume) /\
  fst (upload_student_resume unlink_fails_env sample_id "cv.pdf" pdf_bytes
         world_with_resume)
    = inr (upload_response unlink_fails_env sample_id "cv.pdf" pdf_bytes) /\
  files (snd (upload_student_resume unlink_fails_env sample_id "cv.pdf" pdf_bytes
                world_with_resume)) !! ResumeFile.filePath old_resume
    = files world_with_resume !! ResumeFile.filePath old_resume.
Proof.
  intros w'.
  destruct (replace_deletes_old_file_first disk_full_env sample_id "cv.pdf" pdf_bytes
              world_with_resume (Student.set_resumeFile old_resume sample_student)
              old_resume eq_refl ltac:(vm_compute; discriminate) eq_refl eq_refl eq_refl)
    as (Hgone & _ & Hfail & _).
  destruct (replace_deletes_old_file_first unlink_fails_env sample_id "cv.pdf" pdf_bytes
              world_with_resume (Student.set_resumeFile old_resume sample_student)
              old_resume eq_refl ltac:(vm_compute; discriminate) eq_refl eq_refl eq_refl)
    as (_ & _ & _ & Hok & Hkept).
  split; [split|split].
  - apply Hgone; [reflexivity | vm_compute; discriminate].
  - apply (Hfail (HTTPException 500 "Failed to upload resume")). reflexivity.
  - apply Hok; reflexivity.
  - apply Hkept; [reflexivity | vm_compute; discriminate].
Defined.

(** ** Delete *)

Section Delete.
Variables (env : Env) (sid : string) (w : World) (student : Student.t).
Hypothesis Hid : is_object_id sid = true.
Hypothesis Hfound :
  students_collection w !! object_id_text sid = Some student.

Lemma delete_without_resume :
  Student.resumeFile student = None ->
  delete_student_resume env sid w = (inl (HTTPException 404 "No resume found"), w).
Proof.
  intros Hnone. step_request. rewrite Hid. simpl.
  rewrite Hfound, Hnone. reflexivity.
Qed.

(** The record is cleared whether or not the file could be removed. *)
Lemma delete_with_resume rf :
  Student.resumeFile student = Some rf ->
  update_raises env = false ->
  fst (delete_student_resume env sid w) = inr "Resume deleted successfully" /\
  students_collection (snd (delete_student_resume env sid w))
    !! object_id_text sid = Some (Student.unset_resume student).
Proof.
  intros Hsome Hupd. step_request. rewrite Hid. simpl.
  rewrite Hfound, Hsome, Hupd.
  destruct (bool_decide _), (unlink_raises env); simpl;
    rewrite lookup_alter_eq, Hfound; now split.
Qed.
End Delete.

(** C5: the code does not do all of this.  Delete itself behaves as
    claimed: with the file removal failing, the student's resumeFile and
    resumeAnalysis are cleared all the same, and delete answers 404 for a
    student without a resume.  But the getInfo that follows answers 500, not
    404, because [get_student_resume] turns its own 404 into a 500. *)
Theorem delete_then_get_student_resume_answers_500 :
  let w' := snd (delete_student_resume unlink_fails_env other_id two_students_world) in
  fst (delete_student_resume unlink_fails_env other_id two_students_world)
    = inr "Resume deleted successfully" /\
  students_collection w' !! "65a0000000000000000000ff"
    = Some (Student.unset_resume other_student) /\
  Student.resumeFile (Student.unset_resume other_student) = None /\
  Student.resumeAnalysis (Student.unset_resume other_student) = None /\
  files w' = files two_students_world /\
  fst (delete_student_resume quiet_env sample_id two_students_world)
    = inl (HTTPException 404 "No resume found") /\
  fst (get_student_resume other_id w')
    = inl (HTTPException 500 "Failed to fetch resume") /\
  error_kind (status_of (fst (get_student_resume other_id w'))) <> Some NotFoundError.
Proof.
  intros w'. subst w'.
  repeat split; try reflexivity. vm_compute. discriminate.
Qed.

(** * Further properties of the endpoints *)

(** ** The file-type check *)

Lemma string_length_append (p s : string) :
  String.length (p +:+ s) = (String.length p + String.length s)%nat.
Proof. induction p as [|c p IH]; simpl; [reflexivity | now rewrite IH]. Qed.

Lemma substring_whole (s : string) : substring 0 (String.length s) s = s.
Proof. induction s as [|c s IH]; simpl; [reflexivity | now rewrite IH]. Qed.

Lemma substring_after_prefix (p s : string) m :
  substring (String.length p) m (p +:+ s) = substring 0 m s.
Proof. induction p as [|c p IH]; simpl; [reflexivity | exact IH]. Qed.

Lemma substring_split (s : string) : forall k,
  (k <= String.length s)%nat ->
  s = substring 0 k s +:+ substring k (String.length s - k) s.
Proof.
  induction s as [|c s IH]; intros k Hk.
  - simpl in Hk. assert (k = 0%nat) as -> by lia. reflexivity.
  - destruct k as [|k].
    + change (String c s = substring 0 (String.length (String c s)) (String c s)).
      now rewrite substring_whole.
    + simpl in *.
      change (String c s
              = String c (substring 0 k s +:+ substring k (String.length s - k) s)).
      f_equal. apply IH. lia.
Qed.

Lemma endswith_append (stem suffix : string) :
  endswith (stem +:+ suffix) suffix = true.
Proof.
  unfold endswith. rewrite string_length_append.
  replace (String.length stem + String.length suffix - String.length suffix)%nat
    with (String.length stem) by lia.
  rewrite substring_after_prefix, substring_whole, String.eqb_refl.
  rewrite andb_true_r. apply Nat.leb_le. lia.
Qed.

Lemma endswith_inv (s suffix : string) :
  endswith s suffix = true -> exists stem, s = stem +:+ suffix.
Proof.
  unfold endswith. intros H.
  apply andb_true_iff in H as [Hle Heq].
  apply Nat.leb_le in Hle. apply String.eqb_eq in Heq.
  exists (substring 0 (String.length s - String.length suffix) s).
  pose proof (substring_split s (String.length s - String.length suffix)) as Hs.
  replace (String.length s - (String.length s - String.length suffix))%nat
    with (String.length suffix) in Hs by lia.
  rewrite Heq in Hs. apply Hs. lia.
Qed.

Lemma upload_status_400 env sid fname content w :
  status_of (fst (upload_student_resume env sid fname content w)) = 400 <->
  endswith fname ".pdf" = false.
Proof.
  split.
  - destruct (endswith fname ".pdf") eqn:Hpdf; [|reflexivity].
    intros H. exfalso. revert H. step_request. rewrite Hpdf. simpl.
    repeat (case_match; simplify_eq; simpl in * ); discriminate.
  - intros Hpdf. now rewrite upload_rejects_other_suffix.
Qed.

(** X1: upload answers 400 exactly when the file name is not some stem
    followed by [.pdf], whatever the content, the id and the world are; and a
    400 leaves the world as it was. *)
Theorem upload_400_iff_not_pdf_name env sid fname content w :
  (status_of (fst (upload_student_resume env sid fname content w)) = 400 <->
   ~ exists stem, fname = stem +:+ ".pdf") /\
  (status_of (fst (upload_student_resume env sid fname content w)) = 400 ->
   upload_student_resume env sid fname content w
   = (inl (HTTPException 400 "Only PDF files are allowed"), w)).
Proof.
  split.
  - rewrite upload_status_400. split.
    + intros Hno [stem ->]. rewrite endswith_append in Hno. discriminate.
    + intros Hno. destruct (endswith fname ".pdf") eqn:Hpdf; [|reflexivity].
      exfalso. apply Hno. now apply endswith_inv.
  - intros H. apply upload_status_400 in H.
    now apply upload_rejects_other_suffix.
Qed.

Lemma upload_400_iff_not_pdf_name_witness :
  upload_student_resume quiet_env sample_id "resume.pdf.exe" pdf_bytes world_with_resume
  = (inl (HTTPException 400 "Only PDF files are allowed"), world_with_resume).
Proof.
  apply (proj2 (upload_400_iff_not_pdf_name quiet_env sample_id "resume.pdf.exe"
                  pdf_bytes world_with_resume)).
  reflexivity.
Defined.

(** ** Absent students and malformed identifiers *)

(** X2: for a well-formed id that no student has, download, analyze, delete
    and the upload of a file that passes both file checks all answer 404 and
    leave the world as it was. *)
Theorem absent_student_is_404 sid w :
  is_object_id sid = true ->
  students_collection w !! object_id_text sid = None ->
  (forall env fname content,
     endswith fname ".pdf" = true -> len content <= MAX_FILE_SIZE ->
     upload_student_resume env sid fname content w
     = (inl (HTTPException 404 "Student not found"), w)) /\
  download_student_resume sid w = (inl (HTTPException 404 "Resume not found"), w) /\
  (forall env,
     analyze_student_resume env sid w
     = (inl (HTTPException 404 "Student not found"), w)) /\
  (forall env,
     delete_student_resume env sid w
     = (inl (HTTPException 404 "Student not found"), w)).
Proof.
  intros Hid Hnone. repeat split.
  - intros env fname content Hpdf Hlen. step_request. rewrite Hpdf. simpl.
    destruct (Z.gtb_spec (len content) MAX_FILE_SIZE); [lia|].
    simpl. rewrite Hid. simpl. now rewrite Hnone.
  - step_request. rewrite Hid. simpl. now rewrite Hnone.
  - intros env. step_request. rewrite Hid. simpl. now rewrite Hnone.
  - intros env. step_request. rewrite Hid. simpl. now rewrite Hnone.
Qed.

Lemma absent_student_is_404_witness :
  upload_student_resume quiet_env other_id "cv.pdf" pdf_bytes world_with_resume
    = (inl (HTTPException 404 "Student not found"), world_with_resume) /\
  download_student_resume other_id world_with_resume
    = (inl (HTTPException 404 "Resume not found"), world_with_resume).
Proof.
  destruct (absent_student_is_404 other_id world_with_resume eq_refl eq_refl)
    as (Hup & Hdown & _).
  split; [|exact Hdown].
  apply Hup; [reflexivity | vm_compute; discriminate].
Defined.

(** X3: an id that [ObjectId] rejects (one that does not have 24 characters,
    or that [bytes.fromhex] does not accept) makes every endpoint that takes
    one answer 500, with the endpoint's own message, and changes nothing; for
    upload this happens once the two file checks have passed. *)
Theorem malformed_id_is_500 sid w :
  is_object_id sid = false ->
  get_student_resume sid w = (inl (HTTPException 500 "Failed to fetch resume"), w) /\
  (forall env fname content,
     endswith fname ".pdf" = true -> len content <= MAX_FILE_SIZE ->
     upload_student_resume env sid fname content w
     = (inl (HTTPException 500 "Failed to upload resume"), w)) /\
  download_student_resume sid w
    = (inl (HTTPException 500 "Failed to download resume"), w) /\
  (forall env,
     analyze_student_resume env sid w
     = (inl (HTTPException 500 "Failed to analyze resume"), w)) /\
  (forall env,
     delete_student_resume env sid w
     = (inl (HTTPException 500 "Failed to delete resume"), w)).
Proof.
  intros Hid. repeat split.
  - step_request. now rewrite Hid.
  - intros env fname content Hpdf Hlen. step_request. rewrite Hpdf. simpl.
    destruct (Z.gtb_spec (len content) MAX_FILE_SIZE); [lia|].
    simpl. now rewrite Hid.
  - step_request. now rewrite Hid.
  - intros env. step_request. now rewrite Hid.
  - intros env. step_request. now rewrite Hid.
Qed.

Lemma malformed_id_is_500_witness :
  upload_student_resume quiet_env "42" "cv.pdf" pdf_bytes world_with_resume
    = (inl (HTTPException 500 "Failed to upload resume"), world_with_resume) /\
  delete_student_resume quiet_env "42" world_with_resume
    = (inl (HTTPException 500 "Failed to delete resume"), world_with_resume).
Proof.
  destruct (malformed_id_is_500 "42" world_with_resume eq_refl)
    as (_ & Hup & _ & _ & Hdel).
  split; [|apply Hdel].
  apply Hup; [reflexivity | vm_compute; discriminate].
Defined.

(** ** What a stored record says about the stored file *)

Lemma upload_success_inputs env sid fname content w resp :
  fst (upload_student_resume env sid fname content w) = inr resp ->
  endswith fname ".pdf" = true /\ len content <= MAX_FILE_SIZE /\
  resp = upload_response env sid fname content.
Proof.
  intros Hok.
  destruct (upload_cases env sid fname content w)
    as [[e He] | (student & Hpdf & Hlen & Hid & Hfound)].
  { rewrite He in Hok. discriminate. }
  split; [assumption|]. split; [assumption|].
  rewrite (upload_validated env sid fname content w student Hpdf Hlen Hid Hfound) in Hok.
  simpl in Hok.
  destruct (write_does env); try discriminate.
  destruct (update_raises env); try discriminate.
  now injection Hok.
Qed.

(** X4: after a successful upload the student's record holds the uploaded
    name, a stored name of the form resume-id-timestamp-name under the
    upload directory, and a fileSize that is the length of the bytes found at
    its filePath and is at most 5 MiB; the response reports the same name and
    size. *)
Theorem upload_record_matches_file env sid fname content w resp :
  fst (upload_student_resume env sid fname content w) = inr resp ->
  let w' := snd (upload_student_resume env sid fname content w) in
  exists student rf,
    students_collection w' !! object_id_text sid = Some student /\
    Student.resumeFile student = Some rf /\
    ResumeFile.originalName rf = fname /\
    ResumeFile.fileName rf
      = "resume-" +:+ sid +:+ "-" +:+ now_strftime env +:+ "-" +:+ fname /\
    ResumeFile.filePath rf = "uploads/resumes/" +:+ ResumeFile.fileName rf /\
    files w' !! ResumeFile.filePath rf = Some content /\
    ResumeFile.fileSize rf = len content /\
    ResumeFile.fileSize rf <= MAX_FILE_SIZE /\
    ResumeInfo.fileName (ResumeUploadResponse.resume resp) = fname /\
    ResumeInfo.fileSize (ResumeUploadResponse.resume resp) = len content /\
    ResumeInfo.uploadedAt (ResumeUploadResponse.resume resp) = ResumeFile.uploadedAt rf.
Proof.
  intros Hok w'. subst w'.
  destruct (upload_success_inputs env sid fname content w resp Hok)
    as (Hpdf & Hlen & ->).
  destruct (upload_success env sid fname content w _ Hok)
    as (student & Hid & Hfound & ->).
  exists (Student.set_resumeFile (new_resume_data env sid fname content) student),
         (new_resume_data env sid fname content).
  simpl. rewrite lookup_alter_eq, Hfound.
  repeat split; try reflexivity; try assumption.
  apply lookup_insert_eq.
Qed.

Lemma upload_record_matches_file_witness :
  let w' := snd (upload_student_resume quiet_env sample_id "cv.pdf" pdf_bytes
                   world_without_resume) in
  exists student rf,
    students_collection w' !! object_id_text sample_id = Some student /\
    Student.resumeFile student = Some rf /\
    ResumeFile.originalName rf = "cv.pdf" /\
    ResumeFile.fileName rf
      = "resume-" +:+ sample_id +:+ "-" +:+ now_strftime quiet_env +:+ "-" +:+ "cv.pdf" /\
    ResumeFile.filePath rf = "uploads/resumes/" +:+ ResumeFile.fileName rf /\
    files w' !! ResumeFile.filePath rf = Some pdf_bytes /\
    ResumeFile.fileSize rf = len pdf_bytes /\
    ResumeFile.fileSize rf <= MAX_FILE_SIZE /\
    ResumeInfo.fileName (ResumeUploadResponse.resume
                           (upload_response quiet_env sample_id "cv.pdf" pdf_bytes))
      = "cv.pdf" /\
    ResumeInfo.fileSize (ResumeUploadResponse.resume
                           (upload_response quiet_env sample_id "cv.pdf" pdf_bytes))
      = len pdf_bytes /\
    ResumeInfo.uploadedAt (ResumeUploadResponse.resume
                             (upload_response quiet_env sample_id "cv.pdf" pdf_bytes))
      = ResumeFile.uploadedAt rf.
Proof.
  apply (upload_record_matches_file quiet_env sample_id "cv.pdf" pdf_bytes
           world_without_resume
           (upload_response quiet_env sample_id "cv.pdf" pdf_bytes)).
  reflexivity.
Defined.

(** ** Invariants of the collection *)

Lemma sizes_bounded_alter (f : Student.t -> Student.t) k (db : gmap string Student.t) :
  sizes_bounded db ->
  (forall s rf, Student.resumeFile (f s) = Some rf ->
                Student.resumeFile s = Some rf \/ ResumeFile.fileSize rf <= MAX_FILE_SIZE) ->
  sizes_bounded (alter f k db).
Proof.
  intros Hdb Hf oid s rf Hs Hrf.
  destruct (decide (k = oid)) as [->|Hne].
  - rewrite lookup_alter_eq in Hs.
    destruct (db !! oid) as [s0|] eqn:Hs0; simpl in Hs; [|discriminate].
    injection Hs as <-.
    destruct (Hf s0 rf Hrf) as [Hold|Hle]; [|exact Hle].
    exact (Hdb oid s0 rf Hs0 Hold).
  - rewrite lookup_alter_ne in Hs by assumption.
    exact (Hdb oid s rf Hs Hrf).
Qed.

Lemma upload_keeps_sizes_bounded env sid fname content w :
  sizes_bounded (students_collection w) ->
  sizes_bounded (students_collection (snd (upload_student_resume env sid fname content w))).
Proof.
  intros Hdb.
  destruct (upload_cases env sid fname content w)
    as [[e He] | (student & Hpdf & Hlen & Hid & Hfound)].
  { now rewrite He. }
  rewrite (upload_validated env sid fname content w student Hpdf Hlen Hid Hfound).
  simpl. destruct (write_does env); try exact Hdb.
  destruct (update_raises env); [exact Hdb|]. simpl.
  apply sizes_bounded_alter; [exact Hdb|].
  intros s rf Hrf. right. simpl in Hrf. injection Hrf as <-. exact Hlen.
Qed.

(** X5: the bound of 5 MiB on every stored fileSize is an invariant of the
    collection: if it holds before an upload, an analyze, a delete or a
    create, whatever their arguments and outcome, it holds afterwards. *)
Theorem stored_sizes_stay_bounded w :
  sizes_bounded (students_collection w) ->
  (forall env sid fname content,
     sizes_bounded (students_collection
                      (snd (upload_student_resume env sid fname content w)))) /\
  (forall env sid,
     sizes_bounded (students_collection (snd (analyze_student_resume env sid w)))) /\
  (forall env sid,
     sizes_bounded (students_collection (snd (delete_student_resume env sid w)))) /\
  (forall env req,
     sizes_bounded (students_collection (snd (create_student env req w)))).
Proof.
  intros Hdb. repeat split.
  - intros. now apply upload_keeps_sizes_bounded.
  - intros env sid.
    destruct (analyze_collection env sid w) as [-> | ->]; [exact Hdb|].
    apply sizes_bounded_alter; [exact Hdb|]. intros s rf Hrf. now left.
  - intros env sid.
    destruct (delete_collection env sid w) as [-> | ->]; [exact Hdb|].
    apply sizes_bounded_alter; [exact Hdb|]. intros s rf Hrf. discriminate.
  - intros env req.
    destruct (create_collection env req w) as [-> | [Hfresh ->]]; [exact Hdb|].
    intros oid s rf Hs Hrf.
    rewrite lookup_insert in Hs. case_decide.
    + injection Hs as <-. discriminate.
    + exact (Hdb oid s rf Hs Hrf).
Qed.

Lemma world_with_resume_sizes_bounded :
  sizes_bounded (students_collection world_with_resume).
Proof.
  intros oid s rf Hs Hrf. unfold world_with_resume in Hs. simpl in Hs.
  apply lookup_singleton_Some in Hs as [<- <-].
  simpl in Hrf. injection Hrf as <-. vm_compute. discriminate.
Qed.

Lemma stored_sizes_stay_bounded_witness :
  sizes_bounded (students_collection
                   (snd (upload_student_resume quiet_env sample_id "cv.pdf" pdf_bytes
                           world_with_resume))).
Proof.
  apply (proj1 (stored_sizes_stay_bounded world_with_resume
                  world_with_resume_sizes_bounded)).
Defined.

Lemma email_unique_alter (f : Student.t -> Student.t) k (db : gmap string Student.t) :
  (forall s, Student.email (f s) = Student.email s) ->
  email_unique db -> email_unique (alter f k db).
Proof.
  intros Hf Hdb i j s t Hi Hj He.
  assert (Hlook : forall o x, alter f k db !! o = Some x ->
            exists x0, db !! o = Some x0 /\ Student.email x = Student.email x0).
  { intros o x Hx. destruct (decide (k = o)) as [->|Hne].
    - rewrite lookup_alter_eq in Hx.
      destruct (db !! o) as [x0|]; simpl in Hx; [|discriminate].
      injection Hx as <-. eauto.
    - rewrite lookup_alter_ne in Hx by assumption. eauto. }
  destruct (Hlook i s Hi) as (s0 & Hs0 & Es), (Hlook j t Hj) as (t0 & Ht0 & Et).
  apply (Hdb i j s0 t0 Hs0 Ht0). congruence.
Qed.

(** X6: uniqueness of email across the collection is kept by upload,
    analyze and delete as well, whatever their arguments and outcome: none of
    them writes an email or adds a document. *)
Theorem resume_requests_keep_email_unique w :
  email_unique (students_collection w) ->
  (forall env sid fname content,
     email_unique (students_collection
                     (snd (upload_student_resume env sid fname content w)))) /\
  (forall env sid,
     email_unique (students_collection (snd (analyze_student_resume env sid w)))) /\
  (forall env sid,
     email_unique (students_collection (snd (delete_student_resume env sid w)))).
Proof.
  intros Hdb. repeat split.
  - intros env sid fname content.
    destruct (upload_collection env sid fname content w) as [-> | ->]; [exact Hdb|].
    now apply email_unique_alter.
  - intros env sid.
    destruct (analyze_collection env sid w) as [-> | ->]; [exact Hdb|].
    now apply email_unique_alter.
  - intros env sid.
    destruct (delete_collection env sid w) as [-> | ->]; [exact Hdb|].
    now apply email_unique_alter.
Qed.

Lemma resume_requests_keep_email_unique_witness :
  email_unique (students_collection
                  (snd (delete_student_resume quiet_env sample_id world_with_resume))).
Proof.
  apply (proj2 (proj2 (resume_requests_keep_email_unique world_with_resume
                         (email_unique_singleton _ _)))).
Defined.

(** ** Replacing a resume *)

Lemma download_after_upload env sid fname content w resp :
  fst (upload_student_resume env sid fname content w) = inr resp ->
  download_student_resume sid (snd (upload_student_resume env sid fname content w))
  = (inr (FileResponse.mk (new_file_path env sid fname) fname "application/pdf" content),
     snd (upload_student_resume env sid fname content w)).
Proof.
  intros Hok.
  destruct (upload_success env sid fname content w resp Hok)
    as (student & Hid & Hfound & ->).
  apply (download_stored sid _
           (Student.set_resumeFile (new_resume_data env sid fname content) student)
           (new_resume_data env sid fname content) content Hid).
  - simpl. now rewrite lookup_alter_eq, Hfound.
  - reflexivity.
  - simpl. apply lookup_insert_eq.
Qed.

(** X7: when two uploads for the same student both succeed, one after the
    other, a download returns the bytes and the name of the second; and the
    file of the first is no longer on disk, provided its removal did not fail
    and the second file was given another path. *)
Theorem second_upload_replaces_first env1 env2 sid f1 f2 c1 c2 w r1 r2 :
  fst (upload_student_resume env1 sid f1 c1 w) = inr r1 ->
  fst (upload_student_resume env2 sid f2 c2
         (snd (upload_student_resume env1 sid f1 c1 w))) = inr r2 ->
  let w2 := snd (upload_student_resume env2 sid f2 c2
                   (snd (upload_student_resume env1 sid f1 c1 w))) in
  download_student_resume sid w2
    = (inr (FileResponse.mk (new_file_path env2 sid f2) f2 "application/pdf" c2), w2) /\
  (unlink_raises env2 = false ->
   new_file_path env1 sid f1 <> new_file_path env2 sid f2 ->
   files w2 !! new_file_path env1 sid f1 = None).
Proof.
  intros H1 H2 w2. subst w2. split.
  - exact (download_after_upload env2 sid f2 c2 _ r2 H2).
  - intros Hunlink Hne.
    destruct (upload_success env1 sid f1 c1 w r1 H1) as (s1 & Hid & Hf1 & Hw1).
    destruct (upload_success env2 sid f2 c2 _ r2 H2) as (s2 & _ & Hf2 & ->).
    rewrite Hw1 in Hf2. simpl in Hf2.
    rewrite lookup_alter_eq, Hf1 in Hf2. simpl in Hf2. injection Hf2 as <-.
    simpl. rewrite lookup_insert_ne by congruence.
    apply (files_after_cleanup_old env2 _ (new_resume_data env1 sid f1 c1));
      [reflexivity | assumption].
Qed.

Lemma second_upload_replaces_first_witness :
  let w2 := snd (upload_student_resume minute_later_env sample_id "thesis.pdf" other_bytes
                   (snd (upload_student_resume quiet_env sample_id "cv.pdf" pdf_bytes
                           world_without_resume))) in
  download_student_resume sample_id w2
    = (inr (FileResponse.mk (new_file_path minute_later_env sample_id "thesis.pdf")
              "thesis.pdf" "application/pdf" other_bytes), w2) /\
  files w2 !! new_file_path quiet_env sample_id "cv.pdf" = None.
Proof.
  intros w2.
  destruct (second_upload_replaces_first quiet_env minute_later_env sample_id
              "cv.pdf" "thesis.pdf" pdf_bytes other_bytes world_without_resume
              (upload_response quiet_env sample_id "cv.pdf" pdf_bytes)
              (upload_response minute_later_env sample_id "thesis.pdf" other_bytes)
              eq_refl eq_refl) as [Hdown Hgone].
  split; [exact Hdown|].
  apply Hgone; [reflexivity | vm_compute; discriminate].
Defined.

(** ** Delete, step by step *)

Lemma delete_validated env sid w student rf :
  is_object_id sid = true ->
  students_collection w !! object_id_text sid = Some student ->
  Student.resumeFile student = Some rf ->
  delete_student_resume env sid w
  = let disk := files_after_cleanup env student (files w) in
    if update_raises env
    then (inl (HTTPException 500 "Failed to delete resume"),
          mkWorld (students_collection w) disk)
    else (inr "Resume deleted successfully",
          mkWorld (alter Student.unset_resume (object_id_text sid)
                     (students_collection w)) disk).
Proof.
  intros Hid Hfound Hrf. destruct w as [db disk]. step_request.
  rewrite Hid. simpl. rewrite Hfound, Hrf.
  unfold files_after_cleanup. rewrite Hrf.
  destruct (bool_decide _), (unlink_raises env), (update_raises env); reflexivity.
Qed.

Lemma delete_cases env sid w :
  (exists e, delete_student_resume env sid w = (inl e, w)) \/
  (exists student rf,
     is_object_id sid = true /\
     students_collection w !! object_id_text sid = Some student /\
     Student.resumeFile student = Some rf).
Proof.
  destruct (is_object_id sid) eqn:Hid.
  2: { left. eexists. step_request. now rewrite Hid. }
  destruct (students_collection w !! object_id_text sid)
    as [student|] eqn:Hfound.
  2: { left. eexists. step_request. rewrite Hid. simpl. now rewrite Hfound. }
  destruct (Student.resumeFile student) as [rf|] eqn:Hrf.
  2: { left. eexists. now apply (delete_without_resume env sid w student). }
  right. eauto.
Qed.

Lemma delete_success env sid w msg :
  fst (delete_student_resume env sid w) = inr msg ->
  exists student,
    is_object_id sid = true /\
    students_collection w !! object_id_text sid = Some student /\
    msg = "Resume deleted successfully" /\
    snd (delete_student_resume env sid w)
    = mkWorld (alter Student.unset_resume (object_id_text sid)
                 (students_collection w))
              (files_after_cleanup env student (files w)).
Proof.
  intros Hok.
  destruct (delete_cases env sid w) as [[e He] | (student & rf & Hid & Hfound & Hrf)].
  { rewrite He in Hok. discriminate. }
  exists student. split; [assumption|]. split; [assumption|].
  rewrite (delete_validated env sid w student rf Hid Hfound Hrf) in *.
  simpl in *. destruct (update_raises env); [discriminate|].
  split; [now injection Hok | reflexivity].
Qed.

(** X8: once a delete has succeeded for a student, a download for that
    student answers 404, a second delete answers 404 and an analyze answers
    400, each leaving the world as the delete left it. *)
Theorem after_delete_resume_is_gone env sid w msg :
  fst (delete_student_resume env sid w) = inr msg ->
  let w' := snd (delete_student_resume env sid w) in
  download_student_resume sid w' = (inl (HTTPException 404 "Resume not found"), w') /\
  (forall env',
     delete_student_resume env' sid w' = (inl (HTTPException 404 "No resume found"), w')) /\
  (forall env',
     analyze_student_resume env' sid w'
     = (inl (HTTPException 400 "No resume file found. Please upload a resume first."), w')).
Proof.
  intros Hok w'. subst w'.
  destruct (delete_success env sid w msg Hok) as (student & Hid & Hfound & _ & ->).
  set (w' := mkWorld _ _).
  assert (Hfound' : students_collection w' !! object_id_text sid
                    = Some (Student.unset_resume student))
    by (subst w'; simpl; now rewrite lookup_alter_eq, Hfound).
  split; [|split].
  - step_request. rewrite Hid. simpl in *. now rewrite Hfound'.
  - intros env'.
    now apply (delete_without_resume env' sid w' (Student.unset_resume student)).
  - intros env'.
    now apply (analyze_without_resume env' sid w' (Student.unset_resume student)).
Qed.

Lemma after_delete_resume_is_gone_witness :
  let w' := snd (delete_student_resume quiet_env sample_id world_with_resume) in
  download_student_resume sample_id w' = (inl (HTTPException 404 "Resume not found"), w') /\
  delete_student_resume quiet_env sample_id w'
    = (inl (HTTPException 404 "No resume found"), w').
Proof.
  intros w'.
  destruct (after_delete_resume_is_gone quiet_env sample_id world_with_resume
              "Resume deleted successfully" eq_refl) as (Hdown & Hdel & _).
  split; [exact Hdown | apply Hdel].
Defined.

Lemma files_after_cleanup_other env student disk p :
  (forall old, Student.resumeFile student = Some old -> p <> ResumeFile.filePath old) ->
  files_after_cleanup env student disk !! p = disk !! p.
Proof.
  intros Hp. unfold files_after_cleanup.
  destruct (Student.resumeFile student) as [old|]; [|reflexivity].
  destruct (bool_decide _); [|reflexivity].
  destruct (unlink_raises env); [reflexivity|].
  apply lookup_delete_ne. intros Heq. now apply (Hp old).
Qed.

Lemma files_after_cleanup_kept env student disk :
  unlink_raises env = true -> files_after_cleanup env student disk = disk.
Proof.
  intros Hraises. unfold files_after_cleanup. rewrite Hraises.
  destruct (Student.resumeFile student); [|reflexivity].
  now destruct (bool_decide _).
Qed.

(** X9: what delete does to the upload directory, for a student with a
    stored resume.  When the removal does not fail the student's file is gone
    afterwards, also when the database update then fails and delete answers
    500 with the record still in place; when the removal fails the directory
    is as before, and delete succeeds all the same if the update does.  No
    other path is touched. *)
Theorem delete_removes_only_that_file env sid w student rf :
  is_object_id sid = true ->
  students_collection w !! object_id_text sid = Some student ->
  Student.resumeFile student = Some rf ->
  let r := fst (delete_student_resume env sid w) in
  let w' := snd (delete_student_resume env sid w) in
  (unlink_raises env = false -> files w' !! ResumeFile.filePath rf = None) /\
  (unlink_raises env = true -> files w' = files w) /\
  (forall p, p <> ResumeFile.filePath rf -> files w' !! p = files w !! p) /\
  (update_raises env = true ->
   r = inl (HTTPException 500 "Failed to delete resume") /\
   students_collection w' = students_collection w) /\
  (update_raises env = false -> r = inr "Resume deleted successfully").
Proof.
  intros Hid Hfound Hrf r w'. subst r w'.
  rewrite (delete_validated env sid w student rf Hid Hfound Hrf).
  assert (Hdisk : files (let disk := files_after_cleanup env student (files w) in
                         if update_raises env
                         then (inl (HTTPException 500 "Failed to delete resume"),
                               mkWorld (students_collection w) disk)
                         else (inr "Resume deleted successfully",
                               mkWorld (alter Student.unset_resume
                                          (object_id_text sid)
                                          (students_collection w)) disk)).2
                  = files_after_cleanup env student (files w))
    by (simpl; now destruct (update_raises env)).
  rewrite Hdisk. split; [|split; [|split; [|split]]].
  - intros Hunlink. now apply files_after_cleanup_old.
  - intros Hunlink. now apply files_after_cleanup_kept.
  - intros p Hp. apply files_after_cleanup_other.
    intros old Hold. congruence.
  - intros Hupd. simpl. rewrite Hupd. now split.
  - intros Hupd. simpl. now rewrite Hupd.
Qed.

Lemma delete_removes_only_that_file_witness :
  let w' := snd (delete_student_resume update_fails_env sample_id world_with_resume) in
  files w' !! ResumeFile.filePath old_resume = None /\
  fst (delete_student_resume update_fails_env sample_id world_with_resume)
    = inl (HTTPException 500 "Failed to delete resume") /\
  students_collection w' = students_collection world_with_resume.
Proof.
  intros w'.
  destruct (delete_removes_only_that_file update_fails_env sample_id world_with_resume
              (Student.set_resumeFile old_resume sample_student) old_resume
              eq_refl eq_refl eq_refl) as (Hgone & _ & _ & Hfail & _).
  split; [apply Hgone; reflexivity | apply Hfail; reflexivity].
Defined.

(** ** What delete and analyze leave alone *)

(** X10: delete, whatever its arguments and outcome, adds and removes no
    document and changes no key other than the three resume keys: every
    document is the same as before once those keys are dropped. *)
Theorem delete_changes_only_resume_keys env sid w oid :
  Student.unset_resume
    <$> students_collection (snd (delete_student_resume env sid w)) !! oid
  = Student.unset_resume <$> students_collection w !! oid.
Proof.
  destruct (delete_collection env sid w) as [-> | ->]; [reflexivity|].
  now apply fmap_alter_absorb.
Qed.

Lemma analyze_files env sid w :
  files (snd (analyze_student_resume env sid w)) = files w.
Proof. crunch_request. Qed.

(** X11: analyze, whatever its arguments and outcome, never touches the
    upload directory, adds and removes no document, and changes no key other
    than [resumeAnalysis]; in particular the stored resumeFile is kept. *)
Theorem analyze_changes_only_resumeAnalysis env sid w :
  files (snd (analyze_student_resume env sid w)) = files w /\
  (forall oid,
     without_resumeAnalysis
       <$> students_collection (snd (analyze_student_resume env sid w)) !! oid
     = without_resumeAnalysis <$> students_collection w !! oid) /\
  (forall oid,
     students_collection (snd (analyze_student_resume env sid w)) !! oid
       ≫= Student.resumeFile
     = students_collection w !! oid ≫= Student.resumeFile).
Proof.
  split; [apply analyze_files|]. split; intros oid.
  - destruct (analyze_collection env sid w) as [-> | ->]; [reflexivity|].
    now apply fmap_alter_absorb.
  - destruct (analyze_collection env sid w) as [-> | ->]; [reflexivity|].
    now apply bind_alter_absorb.
Qed.

Lemma alter_twice_absorb {A} (f g : A -> A) k (m : gmap string A) :
  (forall a, f (g a) = f a) -> alter f k (alter g k m) = alter f k m.
Proof.
  intros Hfg. apply map_eq. intros i.
  destruct (decide (k = i)) as [->|Hne].
  - rewrite !lookup_alter_eq. destruct (m !! i); simpl; [now rewrite Hfg | reflexivity].
  - now rewrite !lookup_alter_ne.
Qed.

(** X12: a later analyze overwrites an earlier one entirely: when both
    succeed, the world after the two is the world the later one alone would
    have produced, and the stored analysis is the one the later run
    returned. *)
Theorem later_analysis_overwrites env1 env2 sid w r1 r2 :
  fst (analyze_student_resume env1 sid w) = inr r1 ->
  fst (analyze_student_resume env2 sid (snd (analyze_student_resume env1 sid w))) = inr r2 ->
  snd (analyze_student_resume env2 sid (snd (analyze_student_resume env1 sid w)))
    = snd (analyze_student_resume env2 sid w) /\
  analysis_of (snd (analyze_student_resume env2 sid (snd (analyze_student_resume env1 sid w))))
    (object_id_text sid) = Some (AnalyzeResponse.analysis r2).
Proof.
  intros H1 H2.
  destruct (is_object_id sid) eqn:Hid.
  2: { exfalso. revert H1. step_request. rewrite Hid. discriminate. }
  destruct (students_collection w !! object_id_text sid)
    as [student|] eqn:Hfound.
  2: { exfalso. revert H1. step_request. rewrite Hid. simpl. rewrite Hfound.
       discriminate. }
  destruct (Student.resumeFile student) as [rf|] eqn:Hrf.
  2: { rewrite (analyze_without_resume env1 sid w student Hid Hfound Hrf) in H1.
       discriminate. }
  rewrite (analyze_with_resume env1 sid w student Hid Hfound rf Hrf) in *.
  destruct (update_raises env1); [discriminate|]. simpl in H2 |- *.
  set (a1 := mock_analysis (now_isoformat env1)) in *.
  set (w1 := mkWorld _ _) in *.
  assert (Hfound1 : students_collection w1 !! object_id_text sid
                    = Some (Student.set_resumeAnalysis a1 student))
    by (subst w1; simpl; now rewrite lookup_alter_eq, Hfound).
  rewrite (analyze_with_resume env2 sid w1 _ Hid Hfound1 rf Hrf) in *.
  rewrite (analyze_with_resume env2 sid w student Hid Hfound rf Hrf).
  destruct (update_raises env2); [discriminate|].
  simpl in *. injection H2 as <-. split.
  - f_equal. now apply alter_twice_absorb.
  - unfold analysis_of. simpl.
    now rewrite !lookup_alter_eq, Hfound.
Qed.

Lemma later_analysis_overwrites_witness :
  snd (analyze_student_resume later_env sample_id
         (snd (analyze_student_resume quiet_env sample_id world_with_resume)))
    = snd (analyze_student_resume later_env sample_id world_with_resume) /\
  analysis_of (snd (analyze_student_resume later_env sample_id
                      (snd (analyze_student_resume quiet_env sample_id world_with_resume))))
    (object_id_text sample_id)
    = Some (mock_analysis (now_isoformat later_env)).
Proof.
  exact (later_analysis_overwrites quiet_env later_env sample_id world_with_resume
           (AnalyzeResponse.mk "Resume analyzed successfully"
              (mock_analysis (now_isoformat quiet_env)))
           (AnalyzeResponse.mk "Resume analyzed successfully"
              (mock_analysis (now_isoformat later_env)))
           eq_refl eq_refl).
Defined.

(** ** Resume metadata *)

Lemma get_student_resume_found sid w student rf :
  is_object_id sid = true ->
  students_collection w !! object_id_text sid = Some student ->
  Student.resumeFile student = Some rf ->
  get_student_resume sid w
  = (inr (ResumeInfo.mk (object_id_text sid)
            (ResumeFile.originalName rf)
            ("/api/students/" +:+ sid +:+ "/resume/download")
            (ResumeFile.uploadedAt rf) (ResumeFile.fileSize rf)
            (Student.resumeAnalysis student)), w).
Proof.
  intros Hid Hfound Hrf. step_request. rewrite Hid. simpl.
  now rewrite Hfound, Hrf.
Qed.

(** X13: fetching resume metadata succeeds exactly when the id is
    well-formed and its student has a resumeFile, and it then returns the
    canonical id, the uploaded name, the download link built from the id as
    given, the stored upload time and size, and the stored analysis if there
    is one. *)
Theorem get_student_resume_ok_iff sid w info :
  fst (get_student_resume sid w) = inr info <->
  is_object_id sid = true /\
  exists student rf,
    students_collection w !! object_id_text sid = Some student /\
    Student.resumeFile student = Some rf /\
    info = ResumeInfo.mk (object_id_text sid)
             (ResumeFile.originalName rf)
             ("/api/students/" +:+ sid +:+ "/resume/download")
             (ResumeFile.uploadedAt rf) (ResumeFile.fileSize rf)
             (Student.resumeAnalysis student).
Proof.
  split.
  - intros Hok.
    destruct (is_object_id sid) eqn:Hid.
    2: { exfalso. revert Hok. step_request. rewrite Hid. discriminate. }
    split; [reflexivity|].
    destruct (students_collection w !! object_id_text sid)
      as [student|] eqn:Hfound.
    2: { exfalso. revert Hok. step_request. rewrite Hid. simpl. rewrite Hfound.
         discriminate. }
    destruct (Student.resumeFile student) as [rf|] eqn:Hrf.
    2: { exfalso. revert Hok. step_request. rewrite Hid. simpl.
         rewrite Hfound, Hrf. discriminate. }
    exists student, rf. split; [reflexivity|]. split; [assumption|].
    rewrite (get_student_resume_found sid w student rf Hid Hfound Hrf) in Hok.
    now injection Hok.
  - intros (Hid & student & rf & Hfound & Hrf & ->).
    now rewrite (get_student_resume_found sid w student rf Hid Hfound Hrf).
Qed.

Lemma get_student_resume_ok_iff_witness :
  fst (get_student_resume other_id two_students_world)
  = inr (ResumeInfo.mk "65a0000000000000000000ff" "thesis.pdf"
           "/api/students/65A0000000000000000000FF/resume/download"
           "2024-02-02T08:00:00" 2 (Some earlier_analysis)).
Proof.
  apply (proj2 (get_student_resume_ok_iff other_id two_students_world _)).
  split; [reflexivity|].
  exists other_student, other_resume. repeat split; reflexivity.
Defined.

(** X14: after a successful upload, the metadata of the student reports the
    new name, upload time and size together with whatever analysis the record
    held before the upload: the analysis of a replaced resume keeps being
    served. *)
Theorem metadata_after_upload_keeps_old_analysis env sid fname content w resp student :
  fst (upload_student_resume env sid fname content w) = inr resp ->
  students_collection w !! object_id_text sid = Some student ->
  let w' := snd (upload_student_resume env sid fname content w) in
  get_student_resume sid w'
  = (inr (ResumeInfo.mk (object_id_text sid) fname
            ("/api/students/" +:+ sid +:+ "/resume/download")
            (now_isoformat env) (len content)
            (Student.resumeAnalysis student)), w').
Proof.
  intros Hok Hstudent w'. subst w'.
  destruct (upload_success env sid fname content w resp Hok)
    as (student' & Hid & Hfound & ->).
  rewrite Hstudent in Hfound. injection Hfound as <-.
  apply (get_student_resume_found sid _
           (Student.set_resumeFile (new_resume_data env sid fname content) student)
           (new_resume_data env sid fname content) Hid).
  - simpl. now rewrite lookup_alter_eq, Hstudent.
  - reflexivity.
Qed.

Lemma metadata_after_upload_keeps_old_analysis_witness :
  let w' := snd (upload_student_resume quiet_env other_id "cv.pdf" pdf_bytes
                   two_students_world) in
  get_student_resume other_id w'
  = (inr (ResumeInfo.mk "65a0000000000000000000ff" "cv.pdf"
            "/api/students/65A0000000000000000000FF/resume/download"
            (now_isoformat quiet_env) (len pdf_bytes) (Some earlier_analysis)), w').
Proof.
  exact (metadata_after_upload_keeps_old_analysis quiet_env other_id "cv.pdf" pdf_bytes
           two_students_world (upload_response quiet_env other_id "cv.pdf" pdf_bytes)
           other_student eq_refl eq_refl).
Defined.

(** ** Create, step by step *)

Lemma create_student_fresh env req w :
  (forall i s, students_collection w !! i = Some s ->
               Student.email s <> StudentCreate.email req) ->
  create_student env req w
  = if insert_raises env
    then (inl (HTTPException 500 "Failed to create student"), w)
    else match students_collection w !! inserted_id env with
         | Some _ => (inl (HTTPException 500 "Failed to create student"), w)
         | None =>
             (inr (CreatedStudent.mk (inserted_id env) (StudentCreate.name req)
                     (StudentCreate.email req) (StudentCreate.university req)
                     (StudentCreate.major req)),
              mkWorld (<[inserted_id env := student_data env req]> (students_collection w))
                      (files w))
         end.
Proof.
  intros Hfresh. step_request.
  destruct (List.find _ _) as [[i s]|] eqn:Hfind.
  - exfalso. apply List.find_some in Hfind as [Hin Heq].
    apply list_elem_of_In, elem_of_map_to_list in Hin.
    apply String.eqb_eq in Heq. exact (Hfresh i s Hin Heq).
  - destruct (insert_raises env); [reflexivity|].
    now destruct (students_collection w !! inserted_id env).
Qed.

Lemma create_student_email_free env req w resp :
  fst (create_student env req w) = inr resp ->
  forall i s, students_collection w !! i = Some s ->
              Student.email s <> StudentCreate.email req.
Proof.
  intros Hok i s Hi He.
  rewrite (create_student_conflict env req w i s Hi He) in Hok. discriminate.
Qed.

(** X15: create succeeds exactly when no stored student has the email of
    the request, the insert does not fail and the generated id is not taken;
    the answer then echoes the id, name, email, university and major.  A
    create that does not succeed leaves the world as it was. *)
Theorem create_student_ok_iff env req w resp :
  (fst (create_student env req w) = inr resp <->
   (forall i s, students_collection w !! i = Some s ->
                Student.email s <> StudentCreate.email req) /\
   insert_raises env = false /\
   students_collection w !! inserted_id env = None /\
   resp = CreatedStudent.mk (inserted_id env) (StudentCreate.name req)
            (StudentCreate.email req) (StudentCreate.university req)
            (StudentCreate.major req)) /\
  (forall e, fst (create_student env req w) = inl e ->
             snd (create_student env req w) = w).
Proof.
  split; [split|].
  - intros Hok.
    pose proof (create_student_email_free env req w resp Hok) as Hfree.
    split; [exact Hfree|].
    rewrite (create_student_fresh env req w Hfree) in Hok.
    destruct (insert_raises env); [discriminate|].
    destruct (students_collection w !! inserted_id env); [discriminate|].
    simpl in Hok. injection Hok as <-. auto.
  - intros (Hfree & Hins & Hid & ->).
    now rewrite (create_student_fresh env req w Hfree), Hins, Hid.
  - intros e He.
    destruct (create_collection env req w) as [Hdb | [Hfresh Hdb]];
      revert He Hdb; crunch_request; discriminate.
Qed.

Lemma create_student_ok_iff_witness :
  fst (create_student quiet_env fresh_request world_with_resume)
  = inr (CreatedStudent.mk "65a000000000000000000001" "B" "b@x.com"
           (Some "Other University") None).
Proof.
  apply (proj2 (proj1 (create_student_ok_iff quiet_env fresh_request world_with_resume _))).
  split; [|repeat split; reflexivity].
  intros i s Hi. unfold world_with_resume in Hi. simpl in Hi.
  apply lookup_singleton_Some in Hi as [_ <-]. discriminate.
Defined.

(** X16: create, whatever its arguments and outcome, never touches the
    upload directory and never changes or removes a document that is there:
    each identifier maps to what it mapped to before, except that the
    generated identifier, free before, may now map to the new document. *)
Theorem create_student_only_adds env req w :
  files (snd (create_student env req w)) = files w /\
  forall oid,
    students_collection (snd (create_student env req w)) !! oid
      = students_collection w !! oid \/
    (oid = inserted_id env /\
     students_collection w !! oid = None /\
     students_collection (snd (create_student env req w)) !! oid
       = Some (student_data env req)).
Proof.
  split; [crunch_request|].
  intros oid.
  destruct (create_collection env req w) as [-> | [Hfresh ->]]; [now left|].
  destruct (decide (inserted_id env = oid)) as [<-|Hne].
  - right. now rewrite lookup_insert_eq.
  - left. now rewrite lookup_insert_ne.
Qed.

(** X17: after a successful create, fetching the returned id (a canonical
    well-formed identifier) returns a document with exactly the profile
    fields of the request, marked active, stamped with the two clock
    readings, and without resume, resume text or analysis. *)
Theorem create_then_get_student env req w resp :
  fst (create_student env req w) = inr resp ->
  is_object_id (CreatedStudent.id resp) = true ->
  object_id_text (CreatedStudent.id resp) = CreatedStudent.id resp ->
  let w' := snd (create_student env req w) in
  exists doc,
    get_student (CreatedStudent.id resp) w' = (inr (CreatedStudent.id resp, doc), w') /\
    Student.name doc = StudentCreate.name req /\
    Student.email doc = StudentCreate.email req /\
    Student.university doc = StudentCreate.university req /\
    Student.major doc = StudentCreate.major req /\
    Student.graduationYear doc = StudentCreate.graduationYear req /\
    Student.skills doc = StudentCreate.skills req /\
    Student.interests doc = StudentCreate.interests req /\
    Student.careerGoals doc = StudentCreate.careerGoals req /\
    Student.jobPreferences doc = StudentCreate.jobPreferences req /\
    Student.isActive doc = true /\
    Student.createdAt doc = now_isoformat env /\
    Student.lastLogin doc = now_isoformat' env /\
    Student.resumeFile doc = None /\
    Student.resumeText doc = None /\
    Student.resumeAnalysis doc = None.
Proof.
  intros Hok Hid Hcanon w'. subst w'.
  destruct (proj1 (proj1 (create_student_ok_iff env req w resp)) Hok)
    as (Hfree & Hins & Hnew & Hresp).
  rewrite (create_student_fresh env req w Hfree), Hins, Hnew.
  subst resp. simpl in *.
  exists (student_data env req). split; [|repeat split].
  step_request. rewrite Hid. simpl. rewrite Hcanon.
  now rewrite lookup_insert_eq.
Qed.

Lemma create_then_get_student_witness :
  let w' := snd (create_student quiet_env fresh_request world_with_resume) in
  exists doc,
    get_student "65a000000000000000000001" w'
      = (inr ("65a000000000000000000001", doc), w') /\
    Student.name doc = "B" /\ Student.email doc = "b@x.com" /\
    Student.resumeFile doc = None.
Proof.
  intros w'.
  destruct (create_then_get_student quiet_env fresh_request world_with_resume
              (CreatedStudent.mk "65a000000000000000000001" "B" "b@x.com"
                 (Some "Other University") None)
              eq_refl eq_refl eq_refl) as (doc & Hget & Hname & Hemail & Hrest).
  exists doc. split; [exact Hget|]. split; [exact Hname|]. split; [exact Hemail|].
  apply Hrest.
Defined.

(** X18: a student that has just been created has no resume: analyze
    answers 400, download and delete answer 404, and none of them changes the
    world. *)
Theorem created_student_has_no_resume env req w resp :
  fst (create_student env req w) = inr resp ->
  is_object_id (CreatedStudent.id resp) = true ->
  object_id_text (CreatedStudent.id resp) = CreatedStudent.id resp ->
  let w' := snd (create_student env req w) in
  let sid := CreatedStudent.id resp in
  (forall env',
     analyze_student_resume env' sid w'
     = (inl (HTTPException 400 "No resume file found. Please upload a resume first."), w')) /\
  download_student_resume sid w' = (inl (HTTPException 404 "Resume not found"), w') /\
  (forall env',
     delete_student_resume env' sid w' = (inl (HTTPException 404 "No resume found"), w')).
Proof.
  intros Hok Hid Hcanon w' sid. subst w' sid.
  destruct (proj1 (proj1 (create_student_ok_iff env req w resp)) Hok)
    as (Hfree & Hins & Hnew & Hresp).
  rewrite (create_student_fresh env req w Hfree), Hins, Hnew.
  subst resp. simpl in *.
  set (w' := mkWorld _ _).
  assert (Hfound : students_collection w'
                     !! object_id_text (inserted_id env)
                   = Some (student_data env req))
    by (subst w'; simpl; rewrite Hcanon; apply lookup_insert_eq).
  split; [|split].
  - intros env'. now apply (analyze_without_resume env' _ w' (student_data env req)).
  - step_request. rewrite Hid. simpl in *. now rewrite Hfound.
  - intros env'. now apply (delete_without_resume env' _ w' (student_data env req)).
Qed.

Lemma created_student_has_no_resume_witness :
  let w' := snd (create_student quiet_env fresh_request world_with_resume) in
  analyze_student_resume later_env "65a000000000000000000001" w'
    = (inl (HTTPException 400 "No resume file found. Please upload a resume first."), w') /\
  download_student_resume "65a000000000000000000001" w'
    = (inl (HTTPException 404 "Resume not found"), w').
Proof.
  intros w'.
  destruct (created_student_has_no_resume quiet_env fresh_request world_with_resume
              (CreatedStudent.mk "65a000000000000000000001" "B" "b@x.com"
                 (Some "Other University") None)
              eq_refl eq_refl eq_refl) as (Han & Hdown & _).
  split; [apply Han | exact Hdown].
Defined.

(** ** Listing students *)

Lemma get_students_value env w :
  get_students env w
  = if find_raises env
    then (inl (HTTPException 500 "Failed to fetch students"), w)
    else (inr (List.map (fun kv => (fst kv, Student.unset_resume (snd kv)))
                 (map_to_list (students_collection w))), w).
Proof.
  unfold get_students, find_all_without_resume. unfold_monad.
  now destruct (find_raises env).
Qed.

Lemma map_fst_projection (l : list (string * Student.t)) :
  List.map fst (List.map (fun kv => (fst kv, Student.unset_resume (snd kv))) l)
  = l.*1.
Proof. induction l as [|kv l IH]; simpl; [reflexivity | now rewrite IH]. Qed.

(** X19: listing students changes nothing.  When reading the cursor raises
    it answers 500; otherwise it returns a list with one entry per stored
    student, no identifier twice, whose entries are exactly the stored
    documents with the three resume keys removed and every other key as
    stored. *)
Theorem get_students_lists_every_student_once env w :
  snd (get_students env w) = w /\
  (find_raises env = true ->
   fst (get_students env w) = inl (HTTPException 500 "Failed to fetch students")) /\
  (find_raises env = false ->
   exists students,
     fst (get_students env w) = inr students /\
     length students = size (students_collection w) /\
     NoDup (List.map fst students) /\
     (forall oid listed,
        In (oid, listed) students <->
        exists s, students_collection w !! oid = Some s /\
                  listed = Student.unset_resume s) /\
     (forall oid listed,
        In (oid, listed) students ->
        Student.resumeFile listed = None /\
        Student.resumeText listed = None /\
        Student.resumeAnalysis listed = None /\
        exists s, students_collection w !! oid = Some s /\
                  Student.name listed = Student.name s /\
                  Student.email listed = Student.email s /\
                  Student.skills listed = Student.skills s /\
                  Student.isActive listed = Student.isActive s)).
Proof.
  rewrite get_students_value.
  split; [now destruct (find_raises env)|].
  split; [now intros ->|]. intros ->. simpl.
  eexists. split; [reflexivity|].
  assert (Hin : forall oid listed,
            In (oid, listed)
               (List.map (fun kv => (fst kv, Student.unset_resume (snd kv)))
                  (map_to_list (students_collection w))) <->
            exists s, students_collection w !! oid = Some s /\
                      listed = Student.unset_resume s).
  { intros oid listed. rewrite in_map_iff. split.
    - intros ([i s] & Heq & Hin). simpl in Heq. injection Heq as <- <-.
      exists s. split; [|reflexivity].
      now apply elem_of_map_to_list, list_elem_of_In.
    - intros (s & Hs & ->). exists (oid, s). split; [reflexivity|].
      now apply list_elem_of_In, elem_of_map_to_list. }
  split; [|split; [|split; [exact Hin|]]].
  - rewrite length_map. apply length_map_to_list.
  - rewrite map_fst_projection. apply NoDup_fst_map_to_list.
  - intros oid listed Hl. apply Hin in Hl as (s & Hs & ->).
    repeat split; try reflexivity. exists s. repeat split; try reflexivity.
    assumption.
Qed.

(** ** Download *)

(** X20: a download succeeds exactly when the id is well-formed, its
    student has a resumeFile and a file is on disk at the recorded path; the
    response then carries that path, the uploaded name, the PDF media type
    and the bytes of that file.  A download never changes the world. *)
Theorem download_ok_iff sid w file :
  (fst (download_student_resume sid w) = inr file <->
   is_object_id sid = true /\
   exists student rf,
     students_collection w !! object_id_text sid = Some student /\
     Student.resumeFile student = Some rf /\
     files w !! ResumeFile.filePath rf = Some (FileResponse.body file) /\
     file = FileResponse.mk (ResumeFile.filePath rf) (ResumeFile.originalName rf)
              "application/pdf" (FileResponse.body file)) /\
  snd (download_student_resume sid w) = w.
Proof.
  split; [|apply download_student_resume_world]. split.
  - intros Hok.
    destruct (is_object_id sid) eqn:Hid.
    2: { exfalso. revert Hok. step_request. rewrite Hid. discriminate. }
    split; [reflexivity|].
    destruct (students_collection w !! object_id_text sid)
      as [student|] eqn:Hfound.
    2: { exfalso. revert Hok. step_request. rewrite Hid. simpl. rewrite Hfound.
         discriminate. }
    destruct (Student.resumeFile student) as [rf|] eqn:Hrf.
    2: { exfalso. revert Hok. step_request. rewrite Hid. simpl.
         rewrite Hfound. simpl. rewrite Hrf. discriminate. }
    destruct (files w !! ResumeFile.filePath rf) as [bytes|] eqn:Hfile.
    2: { exfalso. revert Hok. step_request. rewrite Hid. simpl.
         rewrite Hfound. simpl. rewrite Hrf, Hfile. discriminate. }
    rewrite (download_stored sid w student rf bytes Hid Hfound Hrf Hfile) in Hok.
    simpl in Hok. injection Hok as <-. simpl.
    exists student, rf. auto.
  - intros (Hid & student & rf & Hfound & Hrf & Hfile & ->).
    now rewrite (download_stored sid w student rf _ Hid Hfound Hrf Hfile).
Qed.

Lemma download_ok_iff_witness :
  fst (download_student_resume sample_id world_with_resume)
  = inr (FileResponse.mk (ResumeFile.filePath old_resume) "old.pdf" "application/pdf"
           [x25; x50; x44]%byte).
Proof.
  apply (proj2 (proj1 (download_ok_iff sample_id world_with_resume _))).
  split; [reflexivity|].
  exists (Student.set_resumeFile old_resume sample_student), old_resume.
  repeat split; reflexivity.
Defined.

(** X21: when a record points at a path that is not on disk, download
    answers 404 with the message of the missing file, a different message
    from the 404 of a student without a resume, while the metadata of that
    resume is still served. *)
Theorem download_of_missing_file sid w student rf :
  is_object_id sid = true ->
  students_collection w !! object_id_text sid = Some student ->
  Student.resumeFile student = Some rf ->
  files w !! ResumeFile.filePath rf = None ->
  download_student_resume sid w
    = (inl (HTTPException 404 "Resume file not found on disk"), w) /\
  status_of (fst (get_student_resume sid w)) = 200 /\
  (forall sid' student',
     is_object_id sid' = true ->
     students_collection w !! object_id_text sid' = Some student' ->
     Student.resumeFile student' = None ->
     download_student_resume sid' w = (inl (HTTPException 404 "Resume not found"), w)).
Proof.
  intros Hid Hfound Hrf Hfile. split; [|split].
  - step_request. rewrite Hid. simpl. rewrite Hfound. simpl. now rewrite Hrf, Hfile.
  - now rewrite (get_student_resume_found sid w student rf Hid Hfound Hrf).
  - intros sid' student' Hid' Hfound' Hrf'.
    step_request. rewrite Hid'. simpl. rewrite Hfound'. simpl. now rewrite Hrf'.
Qed.

Lemma download_of_missing_file_witness :
  download_student_resume sample_id world_with_dangling_resume
    = (inl (HTTPException 404 "Resume file not found on disk"),
       world_with_dangling_resume) /\
  status_of (fst (get_student_resume sample_id world_with_dangling_resume)) = 200.
Proof.
  destruct (download_of_missing_file sample_id world_with_dangling_resume
              (Student.set_resumeFile old_resume sample_student) old_resume
              eq_refl eq_refl eq_refl eq_refl) as (Hdown & Hinfo & _).
  split; assumption.
Defined.

(** ** What upload does to the upload directory *)

(** X22: an upload, whatever its outcome, changes at most two paths of the
    upload directory: the path it generates for the new file and the path
    recorded for the student's previous resume.  Every other path keeps its
    content, present or absent. *)
Theorem upload_touches_two_paths env sid fname content w p :
  p <> new_file_path env sid fname ->
  (forall student old,
     students_collection w !! object_id_text sid = Some student ->
     Student.resumeFile student = Some old ->
     p <> ResumeFile.filePath old) ->
  files (snd (upload_student_resume env sid fname content w)) !! p = files w !! p.
Proof.
  intros Hnew Hold.
  destruct (upload_cases env sid fname content w)
    as [[e He] | (student & Hpdf & Hlen & Hid & Hfound)].
  { now rewrite He. }
  rewrite (upload_validated env sid fname content w student Hpdf Hlen Hid Hfound).
  pose proof (files_after_cleanup_other env student (files w) p
                (fun old Hrf => Hold student old Hfound Hrf)) as Hp.
  simpl. destruct (write_does env); [destruct (update_raises env)| |]; simpl;
    rewrite ?lookup_insert_ne by congruence; exact Hp.
Qed.

Lemma upload_touches_two_paths_witness :
  files (snd (upload_student_resume quiet_env sample_id "cv.pdf" pdf_bytes
                two_students_world)) !! ResumeFile.filePath other_resume
  = files two_students_world !! ResumeFile.filePath other_resume.
Proof.
  apply (upload_touches_two_paths quiet_env sample_id "cv.pdf" pdf_bytes
           two_students_world (ResumeFile.filePath other_resume)).
  - vm_compute. discriminate.
  - intros student old Hs Hold.
    vm_compute in Hs. injection Hs as <-. discriminate.
Defined.

Lemma append_same_length_inj (a b x y : string) :
  String.length a = String.length b -> a +:+ x = b +:+ y -> a = b.
Proof.
  revert b. induction a as [|c a IH]; intros [|d b] Hlen Heq;
    simpl in Hlen; try discriminate; [reflexivity|].
  change (String c (a +:+ x) = String d (b +:+ y)) in Heq.
  injection Heq as -> Heq. f_equal. apply (IH b); [lia | assumption].
Qed.

Lemma append_cancel_prefix (p x y : string) : p +:+ x = p +:+ y -> x = y.
Proof.
  induction p as [|c p IH]; intros Heq; [exact Heq|].
  change (String c (p +:+ x) = String c (p +:+ y)) in Heq.
  injection Heq as Heq. now apply IH.
Qed.

Lemma is_object_id_length sid :
  is_object_id sid = true -> String.length sid = 24%nat.
Proof.
  unfold is_object_id. intros H. apply andb_true_iff in H as [H _].
  now apply Nat.eqb_eq.
Qed.

(** X23: the paths generated for two different well-formed ids are
    different, whatever the timestamps and the uploaded names are: an upload
    for one id never writes to a path generated for another id. *)
Theorem stored_paths_differ_by_id env1 env2 sid1 sid2 f1 f2 :
  is_object_id sid1 = true ->
  is_object_id sid2 = true ->
  sid1 <> sid2 ->
  new_file_path env1 sid1 f1 <> new_file_path env2 sid2 f2.
Proof.
  intros H1 H2 Hne Heq. apply Hne.
  unfold new_file_path, path_join, stored_name, UPLOAD_DIR in Heq.
  change (("uploads/resumes/resume-" +:+ (sid1 +:+ "-" +:+ now_strftime env1 +:+ "-" +:+ f1))
          = ("uploads/resumes/resume-" +:+ (sid2 +:+ "-" +:+ now_strftime env2 +:+ "-" +:+ f2)))
    in Heq.
  apply append_cancel_prefix in Heq.
  apply (append_same_length_inj _ _ _ _) in Heq; [assumption|].
  now rewrite !is_object_id_length.
Qed.

Lemma stored_paths_differ_by_id_witness :
  new_file_path quiet_env sample_id "cv.pdf"
  <> new_file_path quiet_env "65a0000000000000000000ff" "cv.pdf".
Proof.
  apply (stored_paths_differ_by_id quiet_env quiet_env sample_id
           "65a0000000000000000000ff" "cv.pdf" "cv.pdf");
    [reflexivity | reflexivity | discriminate].
Defined.

(** X24: an upload that fails after the new file was created leaves that
    file behind although no record was changed: when the database update
    raises, the request answers 500, the collection is as before and the new
    path holds the uploaded bytes; when the write itself breaks off, the new
    path holds what had been written. *)
Theorem failed_upload_leaves_new_file env sid fname content w student :
  endswith fname ".pdf" = true ->
  len content <= MAX_FILE_SIZE ->
  is_object_id sid = true ->
  students_collection w !! object_id_text sid = Some student ->
  let r := fst (upload_student_resume env sid fname content w) in
  let w' := snd (upload_student_resume env sid fname content w) in
  (write_does env = WriteCompletes -> update_raises env = true ->
   r = inl (HTTPException 500 "Failed to upload resume") /\
   students_collection w' = students_collection w /\
   files w' !! new_file_path env sid fname = Some content) /\
  (forall written, write_does env = WriteFails written ->
   r = inl (HTTPException 500 "Failed to upload resume") /\
   students_collection w' = students_collection w /\
   files w' !! new_file_path env sid fname = Some written).
Proof.
  intros Hpdf Hlen Hid Hfound r w'. subst r w'.
  rewrite (upload_validated env sid fname content w student Hpdf Hlen Hid Hfound).
  simpl. split.
  - intros -> ->. simpl. rewrite lookup_insert_eq. auto.
  - intros written ->. simpl. rewrite lookup_insert_eq. auto.
Qed.

Lemma failed_upload_leaves_new_file_witness :
  let w' := snd (upload_student_resume update_fails_env sample_id "cv.pdf" pdf_bytes
                   world_with_resume) in
  fst (upload_student_resume update_fails_env sample_id "cv.pdf" pdf_bytes
         world_with_resume) = inl (HTTPException 500 "Failed to upload resume") /\
  students_collection w' = students_collection world_with_resume /\
  files w' !! new_file_path update_fails_env sample_id "cv.pdf" = Some pdf_bytes.
Proof.
  intros w'.
  apply (proj1 (failed_upload_leaves_new_file update_fails_env sample_id "cv.pdf"
                  pdf_bytes world_with_resume
                  (Student.set_resumeFile old_resume sample_student)
                  eq_refl ltac:(vm_compute; discriminate) eq_refl eq_refl));
    reflexivity.
Defined.

(** ** When upload and delete succeed *)

(** X25: an upload succeeds exactly when the name ends in [.pdf], the
    content is at most 5 MiB, the id is well-formed and its student exists,
    the new file is written completely and the database update does not
    fail.  Whether the old file could be removed plays no part. *)
Theorem upload_ok_iff env sid fname content w :
  (exists resp, fst (upload_student_resume env sid fname content w) = inr resp) <->
  endswith fname ".pdf" = true /\
  len content <= MAX_FILE_SIZE /\
  is_object_id sid = true /\
  is_Some (students_collection w !! object_id_text sid) /\
  write_does env = WriteCompletes /\
  update_raises env = false.
Proof.
  split.
  - intros [resp Hok].
    destruct (upload_success_inputs env sid fname content w resp Hok)
      as (Hpdf & Hlen & _).
    destruct (upload_success env sid fname content w resp Hok)
      as (student & Hid & Hfound & _).
    rewrite (upload_validated env sid fname content w student Hpdf Hlen Hid Hfound) in Hok.
    simpl in Hok.
    destruct (write_does env); try discriminate.
    destruct (update_raises env); try discriminate.
    rewrite Hfound. repeat split; eauto.
  - intros (Hpdf & Hlen & Hid & [student Hfound] & Hwrite & Hupd).
    rewrite (upload_validated env sid fname content w student Hpdf Hlen Hid Hfound).
    simpl. rewrite Hwrite, Hupd. eauto.
Qed.

Lemma upload_ok_iff_witness :
  exists resp,
    fst (upload_student_resume unlink_fails_env sample_id "cv.pdf" pdf_bytes
           world_with_resume) = inr resp.
Proof.
  apply (proj2 (upload_ok_iff unlink_fails_env sample_id "cv.pdf" pdf_bytes
                  world_with_resume)).
  repeat split; try reflexivity.
  - vm_compute. discriminate.
  - eexists. reflexivity.
Defined.

(** X26: a delete succeeds exactly when the id is well-formed, its student
    exists and has a resumeFile, and the database update does not fail;
    neither the presence of the file on disk nor a failure to remove it plays
    a part.  After a successful delete the student's record has none of the
    three resume keys. *)
Theorem delete_ok_iff env sid w :
  ((exists msg, fst (delete_student_resume env sid w) = inr msg) <->
   is_object_id sid = true /\
   (exists student rf,
      students_collection w !! object_id_text sid = Some student /\
      Student.resumeFile student = Some rf) /\
   update_raises env = false) /\
  (forall msg, fst (delete_student_resume env sid w) = inr msg ->
   exists student,
     students_collection (snd (delete_student_resume env sid w))
       !! object_id_text sid = Some student /\
     Student.resumeFile student = None /\
     Student.resumeText student = None /\
     Student.resumeAnalysis student = None).
Proof.
  split; [split|].
  - intros [msg Hok].
    destruct (delete_cases env sid w) as [[e He] | (student & rf & Hid & Hfound & Hrf)].
    { rewrite He in Hok. discriminate. }
    rewrite (delete_validated env sid w student rf Hid Hfound Hrf) in Hok.
    simpl in Hok. destruct (update_raises env); [discriminate|].
    repeat split; eauto.
  - intros (Hid & (student & rf & Hfound & Hrf) & Hupd).
    rewrite (delete_validated env sid w student rf Hid Hfound Hrf).
    simpl. rewrite Hupd. eauto.
  - intros msg Hok.
    destruct (delete_success env sid w msg Hok) as (student & Hid & Hfound & _ & ->).
    exists (Student.unset_resume student). simpl.
    rewrite lookup_alter_eq, Hfound. repeat split.
Qed.

Lemma delete_ok_iff_witness :
  exists msg,
    fst (delete_student_resume unlink_fails_env sample_id world_with_dangling_resume)
    = inr msg.
Proof.
  apply (proj2 (proj1 (delete_ok_iff unlink_fails_env sample_id
                         world_with_dangling_resume))).
  split; [reflexivity|]. split; [|reflexivity].
  exists (Student.set_resumeFile old_resume sample_student), old_resume.
  split; reflexivity.
Defined.

Lemma get_students_lists_every_student_once_witness :
  fst (get_students cursor_fails_env two_students_world)
    = inl (HTTPException 500 "Failed to fetch students") /\
  exists students,
    fst (get_students quiet_env two_students_world) = inr students /\
    length students = 2%nat /\
    In (sample_id, sample_student) students.
Proof.
  split.
  - apply (proj1 (proj2 (get_students_lists_every_student_once cursor_fails_env
                           two_students_world))).
    reflexivity.
  - destruct (proj2 (proj2 (get_students_lists_every_student_once quiet_env
                              two_students_world)) eq_refl)
      as (students & Hget & Hlen & _ & Hin & _).
    exists students. split; [exact Hget|]. split; [exact Hlen|].
    apply Hin. exists sample_student. split; reflexivity.
Defined.
